(** * MineAlert: the drone and detection simulators, the detection store and
      the demo image annotator

    A shallow embedding of [drone_simulator.py], [detection_simulator.py],
    [db.py] and [image_processor.py].

    Python floats are idealised as exact numbers: rationals [Q] where the
    code only adds, multiplies and compares (the drone, the image
    annotator), reals [R] where it takes a square root (the hotspot model).
    The ambient effects of the code are explicit: [random.random()] reads a
    tape of draws, [time.time()] is an argument of the operation that reads
    the clock, [uuid.uuid4()] reads a tape of identifiers, and the database
    session and the file system are state that is passed along. *)

From stdpp Require Import gmap strings list pretty.
From Stdlib Require Import QArith Qminmax Qreals Reals Psatz Lia.

(** ** State passing *)

Definition State (S A : Type) : Type := S -> A * S.

Definition ret {S A : Type} (a : A) : State S A := fun s => (a, s).

Definition bind {S A B : Type} (m : State S A) (k : A -> State S B) : State S B :=
  fun s => let (a, s') := m s in k a s'.

Declare Scope state_scope.
Delimit Scope state_scope with state.
Notation "x <- m ;; k" := (bind m (fun x => k))
  (at level 100, m at next level, right associativity) : state_scope.

(** A tape of values read front to back: the draws of the random number
    generator, the identifiers of the uuid source. *)
Definition tape (A : Type) : Type := nat -> A.

Definition next {A : Type} : State (tape A) A :=
  fun g => (g 0%nat, fun n => g (S n)).

Definition const_tape {A : Type} (a : A) : tape A := fun _ => a.

Definition cons_tape {A : Type} (a : A) (g : tape A) : tape A :=
  fun n => match n with O => a | S n' => g n' end.

(** ** Python's comparisons, [max] and [min] on rationals *)

Definition Qltb (a b : Q) : bool := negb (Qle_bool b a).

(** [max(a, b)] keeps [a] unless [b > a]; [min(a, b)] keeps [a] unless [b < a]. *)
Definition py_max (a b : Q) : Q := if Qltb a b then b else a.
Definition py_min (a b : Q) : Q := if Qltb b a then b else a.

(** * drone_simulator.py *)
Module Drone.

Local Open Scope Q_scope.

Record drone : Type := mkDrone {
  initial_lat : Q;
  initial_lng : Q;
  latitude : Q;
  longitude : Q;
  altitude : Q;
  speed : Q;
  heading : Z;
  battery_level : Q;
  signal_strength : Q;
  last_update_time : Q;
  is_flying : bool;
  max_speed : Q;
  max_altitude : Q;
  min_altitude : Q;
  movement_step : Q
}.

(** Attribute assignment [self.f = v]. *)
Definition set_latitude (v : Q) (s : drone) : drone :=
  mkDrone (initial_lat s) (initial_lng s) v (longitude s) (altitude s) (speed s)
    (heading s) (battery_level s) (signal_strength s) (last_update_time s)
    (is_flying s) (max_speed s) (max_altitude s) (min_altitude s) (movement_step s).

Definition set_longitude (v : Q) (s : drone) : drone :=
  mkDrone (initial_lat s) (initial_lng s) (latitude s) v (altitude s) (speed s)
    (heading s) (battery_level s) (signal_strength s) (last_update_time s)
    (is_flying s) (max_speed s) (max_altitude s) (min_altitude s) (movement_step s).

Definition set_altitude (v : Q) (s : drone) : drone :=
  mkDrone (initial_lat s) (initial_lng s) (latitude s) (longitude s) v (speed s)
    (heading s) (battery_level s) (signal_strength s) (last_update_time s)
    (is_flying s) (max_speed s) (max_altitude s) (min_altitude s) (movement_step s).

Definition set_speed (v : Q) (s : drone) : drone :=
  mkDrone (initial_lat s) (initial_lng s) (latitude s) (longitude s) (altitude s) v
    (heading s) (battery_level s) (signal_strength s) (last_update_time s)
    (is_flying s) (max_speed s) (max_altitude s) (min_altitude s) (movement_step s).

Definition set_heading (v : Z) (s : drone) : drone :=
  mkDrone (initial_lat s) (initial_lng s) (latitude s) (longitude s) (altitude s)
    (speed s) v (battery_level s) (signal_strength s) (last_update_time s)
    (is_flying s) (max_speed s) (max_altitude s) (min_altitude s) (movement_step s).

Definition set_battery_level (v : Q) (s : drone) : drone :=
  mkDrone (initial_lat s) (initial_lng s) (latitude s) (longitude s) (altitude s)
    (speed s) (heading s) v (signal_strength s) (last_update_time s)
    (is_flying s) (max_speed s) (max_altitude s) (min_altitude s) (movement_step s).

Definition set_signal_strength (v : Q) (s : drone) : drone :=
  mkDrone (initial_lat s) (initial_lng s) (latitude s) (longitude s) (altitude s)
    (speed s) (heading s) (battery_level s) v (last_update_time s)
    (is_flying s) (max_speed s) (max_altitude s) (min_altitude s) (movement_step s).

Definition set_last_update_time (v : Q) (s : drone) : drone :=
  mkDrone (initial_lat s) (initial_lng s) (latitude s) (longitude s) (altitude s)
    (speed s) (heading s) (battery_level s) (signal_strength s) v
    (is_flying s) (max_speed s) (max_altitude s) (min_altitude s) (movement_step s).

Definition set_is_flying (v : bool) (s : drone) : drone :=
  mkDrone (initial_lat s) (initial_lng s) (latitude s) (longitude s) (altitude s)
    (speed s) (heading s) (battery_level s) (signal_strength s) (last_update_time s)
    v (max_speed s) (max_altitude s) (min_altitude s) (movement_step s).

(** [DroneSimulator.__init__]; [now] is the reading of [time.time()]. *)
Definition __init__ (initial_lat initial_lng initial_altitude now : Q) : drone :=
  {| initial_lat := initial_lat;
     initial_lng := initial_lng;
     latitude := initial_lat;
     longitude := initial_lng;
     altitude := initial_altitude;
     speed := 0.0;
     heading := 0;
     battery_level := 100;
     signal_strength := 95;
     last_update_time := now;
     is_flying := false;
     max_speed := 10.0;
     max_altitude := 50.0;
     min_altitude := 5.0;
     movement_step := 0.0001 |}.

(** The constructor's default arguments. *)
Definition default_lat : Q := 0.0.
Definition default_lng : Q := 0.0.
Definition default_altitude : Q := 10.0.

Definition _consume_battery (amount : Q) (s : drone) : drone :=
  set_battery_level (py_max 0 (battery_level s - amount)) s.

Definition takeoff (s : drone) : drone :=
  let s := set_is_flying true s in
  let s := set_altitude 10.0 s in
  set_speed 1.0 s.

Definition land (s : drone) : drone :=
  let s := set_is_flying false s in
  let s := set_altitude 0.0 s in
  set_speed 0.0 s.

Definition move_forward (s : drone) : drone :=
  if is_flying s then
    let s := set_latitude (latitude s + movement_step s) s in
    let s := set_speed 2.0 s in
    let s := set_heading 0 s in
    _consume_battery 0.2 s
  else s.

Definition move_backward (s : drone) : drone :=
  if is_flying s then
    let s := set_latitude (latitude s - movement_step s) s in
    let s := set_speed 2.0 s in
    let s := set_heading 180 s in
    _consume_battery 0.2 s
  else s.

Definition move_left (s : drone) : drone :=
  if is_flying s then
    let s := set_longitude (longitude s - movement_step s) s in
    let s := set_speed 2.0 s in
    let s := set_heading 270 s in
    _consume_battery 0.2 s
  else s.

Definition move_right (s : drone) : drone :=
  if is_flying s then
    let s := set_longitude (longitude s + movement_step s) s in
    let s := set_speed 2.0 s in
    let s := set_heading 90 s in
    _consume_battery 0.2 s
  else s.

Definition move_up (s : drone) : drone :=
  if is_flying s && Qltb (altitude s) (max_altitude s) then
    let s := set_altitude (altitude s + 1.0) s in
    _consume_battery 0.3 s
  else s.

Definition move_down (s : drone) : drone :=
  if is_flying s && Qltb (min_altitude s) (altitude s) then
    let s := set_altitude (altitude s - 1.0) s in
    _consume_battery 0.1 s
  else s.

Definition return_to_home (s : drone) : drone :=
  if is_flying s then
    let s := set_latitude (latitude s * 0.8 + initial_lat s * 0.2) s in
    let s := set_longitude (longitude s * 0.8 + initial_lng s * 0.2) s in
    let s := set_speed 5.0 s in
    _consume_battery 0.5 s
  else s.

Definition emergency_stop (s : drone) : drone :=
  let s := set_speed 0.0 s in
  let s := set_altitude 0.0 s in
  set_is_flying false s.

(** [random.random()] and [random.uniform(a, b) = a + (b - a) * random()]. *)
Definition random : State (tape Q) Q := next.

Definition uniform (a b : Q) : State (tape Q) Q :=
  (u <- random ;; ret (a + (b - a) * u))%state.

(** [update_status]; [current_time] is the reading of [time.time()]. *)
Definition update_status (current_time : Q) (s : drone) : State (tape Q) drone :=
  (let elapsed_time := current_time - last_update_time s in
   s <- (if is_flying s then
           let s := _consume_battery (0.05 * elapsed_time) s in
           r <- random ;;
           s <- (if Qltb r 0.3 then
                   d <- uniform (-0.00001) 0.00001 ;;
                   let s := set_latitude (latitude s + d) s in
                   d <- uniform (-0.00001) 0.00001 ;;
                   ret (set_longitude (longitude s + d) s)
                 else ret s) ;;
           d <- uniform (-0.2) 0.2 ;;
           let s := set_speed (speed s + d) s in
           ret (set_speed (py_max 0 (py_min (max_speed s) (speed s))) s)
         else
           let s := _consume_battery (0.01 * elapsed_time) s in
           ret (set_speed 0.0 s)) ;;
   d <- uniform (-2) 2 ;;
   let s := set_signal_strength (signal_strength s + d) s in
   let s := set_signal_strength (py_max 60 (py_min 100 (signal_strength s))) s in
   ret (set_last_update_time current_time s))%state.

(** The public operations; [UpdateStatus] carries the clock reading. *)
Inductive op : Type :=
| Takeoff | Land
| MoveForward | MoveBackward | MoveLeft | MoveRight | MoveUp | MoveDown
| ReturnToHome | EmergencyStop
| UpdateStatus (current_time : Q).

(** A simulator together with the rest of the random tape. *)
Definition world : Type := drone * tape Q.

Definition run (o : op) (w : world) : world :=
  let (s, g) := w in
  match o with
  | Takeoff => (takeoff s, g)
  | Land => (land s, g)
  | MoveForward => (move_forward s, g)
  | MoveBackward => (move_backward s, g)
  | MoveLeft => (move_left s, g)
  | MoveRight => (move_right s, g)
  | MoveUp => (move_up s, g)
  | MoveDown => (move_down s, g)
  | ReturnToHome => (return_to_home s, g)
  | EmergencyStop => (emergency_stop s, g)
  | UpdateStatus t => update_status t s g
  end.

Definition run_all (ops : list op) (w : world) : world :=
  fold_left (fun w o => run o w) ops w.

(** States reachable from [DroneSimulator(lat, lng, alt)] by the public
    operations, for any clock readings and any random draws. *)
Inductive reachable (lat lng alt : Q) : world -> Prop :=
| reach_init now g : reachable lat lng alt (__init__ lat lng alt now, g)
| reach_step w o : reachable lat lng alt w -> reachable lat lng alt (run o w).

(** The clock did not run backwards between the last reading kept in
    [last_update_time] and the reading of this operation. *)
Definition clock_ok (o : op) (s : drone) : Prop :=
  match o with
  | UpdateStatus t => last_update_time s <= t
  | _ => True
  end.

(** Reachability when [time.time()] never reads earlier than before. *)
Inductive reachable_mono (lat lng alt : Q) : world -> Prop :=
| reachm_init now g : reachable_mono lat lng alt (__init__ lat lng alt now, g)
| reachm_step w o :
    reachable_mono lat lng alt w -> clock_ok o (fst w) ->
    reachable_mono lat lng alt (run o w).

(** [n] calls of [return_to_home] in a row. *)
Fixpoint return_to_home_n (n : nat) (s : drone) : drone :=
  match n with
  | O => s
  | S n' => return_to_home_n n' (return_to_home s)
  end.

(** The invariant behind the altitude range: the limits are those of the
    constructor, and a flying drone is at a whole number of metres between
    them. *)
Definition altitude_inv (s : drone) : Prop :=
  max_altitude s = 50.0 /\ min_altitude s = 5.0 /\
  (is_flying s = true -> exists k : Z, (5 <= k <= 50)%Z /\ altitude s == inject_Z k).

(** The drone is exactly at its home position. *)
Definition at_home (s : drone) : Prop :=
  latitude s == initial_lat s /\ longitude s == initial_lng s.

(** The Euclidean distance from the drone to its home position. *)
Definition home_distance (s : drone) : R :=
  sqrt (Q2R ((latitude s - initial_lat s) * (latitude s - initial_lat s) +
             (longitude s - initial_lng s) * (longitude s - initial_lng s))).

(** A flying drone away from home, for the examples. *)
Definition away : drone :=
  set_latitude 0.001 (set_longitude (-0.002) (takeoff (__init__ 0 0 10 0))).

End Drone.

(** * Python values, exceptions *)

(** The values the detection dictionaries hold; [N] is the type that stands
    for Python's floats. *)
Inductive pyval (N : Type) : Type :=
| PyNone
| PyStr (s : string)
| PyInt (z : Z)
| PyFloat (x : N)
| PyTime (t : N).

Arguments PyNone {N}.
Arguments PyStr {N} s.
Arguments PyInt {N} z.
Arguments PyFloat {N} x.
Arguments PyTime {N} t.

(** A Python dict with string keys. *)
Abbreviation dict N := (gmap string (pyval N)).

Inductive exn : Type :=
| KeyError (key : string)
| IntegrityError
| FileNotFoundError
| ValueError
| OSError
| cv2_error.

Inductive outcome (A : Type) : Type :=
| Return (a : A)
| Raise (e : exn).

Arguments Return {A} a.
Arguments Raise {A} e.

(** [utils.generate_unique_id]: [str(uuid.uuid4())], the next identifier of
    the uuid source. *)
Definition generate_unique_id : State (tape string) string := next.

(** * detection_simulator.py *)
Module Detection.

Local Open Scope R_scope.

Record hotspot : Type := mkHotspot {
  lat : R;
  lon : R;
  radius : R;
  probability : R
}.

Definition landmine_hotspots : list hotspot :=
  [ mkHotspot 34.0522 (-118.2437) 0.001 0.7;
    mkHotspot 34.0530 (-118.2450) 0.0008 0.6;
    mkHotspot 34.0515 (-118.2420) 0.0005 0.8 ].

Definition debris_hotspots : list hotspot :=
  [ mkHotspot 34.0525 (-118.2440) 0.002 0.5;
    mkHotspot 34.0518 (-118.2435) 0.001 0.4;
    mkHotspot 34.0528 (-118.2430) 0.001 0.6 ].

Definition safe_hotspots : list hotspot :=
  [ mkHotspot 34.0535 (-118.2455) 0.002 0.9;
    mkHotspot 34.0510 (-118.2415) 0.001 0.8 ].

Definition distance (lat1 lon1 lat2 lon2 : R) : R :=
  sqrt ((lat1 - lat2) ^ 2 + (lon1 - lon2) ^ 2).

Definition Rltb (a b : R) : bool := if Rlt_dec a b then true else false.

Definition random : State (tape R) R := next.

Definition uniform (a b : R) : State (tape R) R :=
  (u <- random ;; ret (a + (b - a) * u))%state.

(** [itertools.accumulate]: the running sums. *)
Fixpoint accumulate_from (acc : R) (ws : list R) : list R :=
  match ws with
  | [] => []
  | w :: ws' => (acc + w) :: accumulate_from (acc + w) ws'
  end.

Definition accumulate (ws : list R) : list R := accumulate_from 0 ws.

(** [bisect.bisect_right] on a sorted list: the number of leading entries
    that are [<= x]. *)
Fixpoint bisect (a : list R) (x : R) : nat :=
  match a with
  | [] => O
  | e :: a' => if Rltb x e then O else S (bisect a' x)
  end.

(** [random.choices(population, weights=weights)[0]]: one draw, scaled by
    the total weight and located among the cumulative weights of all
    entries but the last. *)
Definition choices (population : list string) (weights : list R)
  : State (tape R) string :=
  (let cum_weights := accumulate weights in
   let total := List.last cum_weights 0 in
   let hi := (length population - 1)%nat in
   u <- random ;;
   ret (nth (bisect (firstn hi cum_weights) (u * total)) population EmptyString))%state.

(** One of the three [for hotspot in ...] loops of [is_near_hotspot]; the
    loops differ in the list and in the classification they return. *)
Fixpoint scan_hotspots (label : string) (hotspots : list hotspot) (qlat qlon : R)
  : State (tape R) (option (string * R)) :=
  match hotspots with
  | [] => ret None
  | h :: rest =>
      let dist := distance qlat qlon (lat h) (lon h) in
      if Rltb dist (radius h) then
        (u <- random ;;
         if Rltb u (probability h) then ret (Some (label, probability h * 100))
         else scan_hotspots label rest qlat qlon)%state
      else scan_hotspots label rest qlat qlon
  end.

(** The random detection after the three loops. *)
Definition random_detection : State (tape R) (option string * R) :=
  (u <- random ;;
   if Rltb u 0.05 then
     detection_type <- choices ["Landmine"; "Metal Debris"; "Safe Zone"]%string
                               [0.2; 0.5; 0.3] ;;
     confidence <- uniform 70 95 ;;
     ret (Some detection_type, confidence)
   else ret (None, 0))%state.

Definition is_near_hotspot (qlat qlon : R) : State (tape R) (option string * R) :=
  (r <- scan_hotspots "Landmine" landmine_hotspots qlat qlon ;;
   match r with
   | Some (t, c) => ret (Some t, c)
   | None =>
       r <- scan_hotspots "Metal Debris" debris_hotspots qlat qlon ;;
       match r with
       | Some (t, c) => ret (Some t, c)
       | None =>
           r <- scan_hotspots "Safe Zone" safe_hotspots qlat qlon ;;
           match r with
           | Some (t, c) => ret (Some t, c)
           | None => random_detection
           end
       end
   end)%state.

(** What [check_for_detection] reads from outside: the random draws, the
    uuid source and the readings of [datetime.now()]. *)
Record env : Type := mkEnv {
  rng : tape R;
  uuids : tape string;
  clock : tape R
}.

Definition with_rng {A : Type} (m : State (tape R) A) : State env A :=
  fun e => let (a, g) := m (rng e) in (a, mkEnv g (uuids e) (clock e)).

Definition with_uuids {A : Type} (m : State (tape string) A) : State env A :=
  fun e => let (a, g) := m (uuids e) in (a, mkEnv (rng e) g (clock e)).

Definition datetime_now : State env R :=
  fun e => let (t, g) := next (clock e) in (t, mkEnv (rng e) (uuids e) g).

(** Python's truth value of [None] or a string. *)
Definition truthy (o : option string) : bool :=
  match o with
  | None => false
  | Some s => negb (String.eqb s EmptyString)
  end.

Definition py_of_type (o : option string) : pyval R :=
  match o with
  | None => PyNone
  | Some s => PyStr s
  end.

Definition check_for_detection (qlat qlon : R) : State env (option (dict R)) :=
  (r <- with_rng (is_near_hotspot qlat qlon) ;;
   let (detection_type, confidence) := r in
   if truthy detection_type then
     id <- with_uuids generate_unique_id ;;
     timestamp <- datetime_now ;;
     let detection : dict R :=
       <[ "id"%string := PyStr id ]>
       (<[ "timestamp"%string := PyTime timestamp ]>
       (<[ "latitude"%string := PyFloat qlat ]>
       (<[ "longitude"%string := PyFloat qlon ]>
       (<[ "classification"%string := py_of_type detection_type ]>
       (<[ "confidence"%string := PyFloat confidence ]> ∅))))) in
     ret (Some detection)
   else ret None)%state.

(** ** The behaviour of [is_near_hotspot] as the specification words it *)

(** The hotspots in the order of the scan, each with its classification. *)
Definition tagged (label : string) (hs : list hotspot) : list (string * hotspot) :=
  map (fun h => (label, h)) hs.

Definition scan_order : list (string * hotspot) :=
  tagged "Landmine" landmine_hotspots ++
  tagged "Metal Debris" debris_hotspots ++
  tagged "Safe Zone" safe_hotspots.

(** [scan_run qlat qlon hs g r g']: going through [hs] from the front with the
    draws of [g], the scan stops at the first hotspot whose centre is
    strictly closer than its radius, in the Euclidean distance
    [sqrt ((qlat - lat) ^ 2 + (qlon - lon) ^ 2)], and whose draw is below its
    probability, with that hotspot's classification and its probability
    times 100; a hotspot out of range takes no draw; [r = None] when no
    hotspot matches. [g'] is what is left of the tape. *)
Inductive scan_run (qlat qlon : R)
  : list (string * hotspot) -> tape R -> option (string * R) -> tape R -> Prop :=
| scan_done g : scan_run qlat qlon [] g None g
| scan_far label h hs g r g' :
    ~ sqrt ((qlat - lat h) ^ 2 + (qlon - lon h) ^ 2) < radius h ->
    scan_run qlat qlon hs g r g' ->
    scan_run qlat qlon ((label, h) :: hs) g r g'
| scan_miss label h hs g r g' :
    sqrt ((qlat - lat h) ^ 2 + (qlon - lon h) ^ 2) < radius h ->
    ~ g 0%nat < probability h ->
    scan_run qlat qlon hs (snd (next g)) r g' ->
    scan_run qlat qlon ((label, h) :: hs) g r g'
| scan_hit label h hs g :
    sqrt ((qlat - lat h) ^ 2 + (qlon - lon h) ^ 2) < radius h ->
    g 0%nat < probability h ->
    scan_run qlat qlon ((label, h) :: hs) g
      (Some (label, probability h * 100)) (snd (next g)).

(** The classifications of the simulator. *)
Definition labels : list string := ["Landmine"; "Metal Debris"; "Safe Zone"]%string.

(** Every draw of the tape is a value of [random.random()]. *)
Definition unit_draws (g : tape R) : Prop := forall n, 0 <= g n < 1.

End Detection.

(** * Code that can raise: state passing with exceptions *)

Definition Exc (S A : Type) : Type := S -> outcome A * S.

Definition eret {S A : Type} (a : A) : Exc S A := fun s => (Return a, s).

Definition raise {S A : Type} (e : exn) : Exc S A := fun s => (Raise e, s).

Definition ebind {S A B : Type} (m : Exc S A) (k : A -> Exc S B) : Exc S B :=
  fun s => match m s with
           | (Return a, s') => k a s'
           | (Raise e, s') => (Raise e, s')
           end.

Declare Scope exc_scope.
Delimit Scope exc_scope with exc.
Notation "x <- m ;; k" := (ebind m (fun x => k))
  (at level 100, m at next level, right associativity) : exc_scope.

(** An expression that raises or yields a value, within stateful code. *)
Definition of_outcome {S A : Type} (o : outcome A) : Exc S A := fun s => (o, s).

(** * db.py *)
Module Db.

(** The ORM object of table [detections]; Python does not check the types of
    the attributes when the object is built. *)
Record Detection : Type := mkDetection {
  id : pyval Q;
  timestamp : pyval Q;
  latitude : pyval Q;
  longitude : pyval Q;
  classification : pyval Q;
  confidence : pyval Q;
  image_path : pyval Q;
  x : pyval Q;
  y : pyval Q;
  width : pyval Q;
  height : pyval Q
}.

(** The committed rows of table [detections], oldest first. *)
Definition database : Type := list Detection.

(** A session: the database it is bound to and the objects added since the
    last commit or rollback. *)
Record session : Type := mkSession {
  table : database;
  pending : list Detection
}.

(** [detection_data['key']] and [detection_data.get('key')]. *)
Definition subscript (d : dict Q) (key : string) : outcome (pyval Q) :=
  match d !! key with
  | Some v => Return v
  | None => Raise (KeyError key)
  end.

Definition get (d : dict Q) (key : string) : pyval Q :=
  match d !! key with
  | Some v => v
  | None => PyNone
  end.

(** The call [Detection(id=detection_data['id'], ...)]: the arguments are
    evaluated in the order they are written. *)
Definition new_Detection (detection_data : dict Q) : outcome Detection :=
  match subscript detection_data "id" with
  | Raise e => Raise e
  | Return v_id =>
  match subscript detection_data "timestamp" with
  | Raise e => Raise e
  | Return v_timestamp =>
  match subscript detection_data "latitude" with
  | Raise e => Raise e
  | Return v_latitude =>
  match subscript detection_data "longitude" with
  | Raise e => Raise e
  | Return v_longitude =>
  match subscript detection_data "classification" with
  | Raise e => Raise e
  | Return v_classification =>
  match subscript detection_data "confidence" with
  | Raise e => Raise e
  | Return v_confidence =>
      Return (mkDetection v_id v_timestamp v_latitude v_longitude
                v_classification v_confidence
                (get detection_data "image_path")
                (get detection_data "x") (get detection_data "y")
                (get detection_data "width") (get detection_data "height"))
  end end end end end end.

Section Session.

(** What the database answers to the INSERT of a row into the table as it
    stands: [None] when it takes the row, the exception otherwise (a
    primary key that is taken, a NULL in a column that is NOT NULL, a value
    the column type cannot bind). *)
Variable insert_error : database -> Detection -> option exn.

Definition SessionLocal (d : database) : session := mkSession d [].

Definition add (r : Detection) : Exc session unit :=
  fun s => (Return tt, mkSession (table s) (pending s ++ [r])).

(** The flush of a commit: the pending rows are inserted in the order they
    were added, as the session holds them; the default of column
    [timestamp], which stands in for a timestamp that is [None], is not
    applied here. *)
Fixpoint flush (tbl : database) (rows : list Detection) : outcome database :=
  match rows with
  | [] => Return tbl
  | r :: rows' =>
      match insert_error tbl r with
      | None => flush (tbl ++ [r]) rows'
      | Some e => Raise e
      end
  end.

(** [commit] writes all pending rows or none: when the flush raises, the
    committed table is as before and the session still holds its rows. *)
Definition commit : Exc session unit :=
  fun s => match flush (table s) (pending s) with
           | Return tbl => (Return tt, mkSession tbl [])
           | Raise e => (Raise e, s)
           end.

Definition rollback (s : session) : session := mkSession (table s) [].

Definition close (s : session) : database := table s.

(** [save_detection]: the [try] body, then [except Exception] and [finally]. *)
Definition save_detection_body (detection_data : dict Q) : Exc session bool :=
  (detection <- of_outcome (new_Detection detection_data) ;;
   _ <- add detection ;;
   _ <- commit ;;
   eret true)%exc.

Definition save_detection (detection_data : dict Q) : Exc database bool :=
  fun d =>
    let db := SessionLocal d in
    let (r, db) := save_detection_body detection_data db in
    let (result, db) :=
      match r with
      | Return b => (Return b, db)
      | Raise e => (Return false, rollback db)
      end in
    (result, close db).

End Session.

(** A database that enforces the primary key and the NOT NULL columns of
    the model. *)
Definition is_none (v : pyval Q) : bool :=
  match v with PyNone => true | _ => false end.

Definition same_key (a b : pyval Q) : bool :=
  match a, b with
  | PyStr s, PyStr t => String.eqb s t
  | _, _ => false
  end.

Definition sqlite_insert_error (tbl : database) (r : Detection) : option exn :=
  if is_none (id r) || is_none (latitude r) || is_none (longitude r)
     || is_none (classification r) || is_none (confidence r)
     || existsb (fun r' => same_key (id r') (id r)) tbl
  then Some IntegrityError else None.

End Db.

(** * image_processor.py *)
Module ImageProcessor.

Local Open Scope Q_scope.

(** [needle in hay] on strings. *)
Fixpoint contains (needle hay : string) : bool :=
  String.prefix needle hay ||
  match hay with
  | EmptyString => false
  | String _ hay' => contains needle hay'
  end.

Definition point : Type := Z * Z.
Definition color : Type := Z * Z * Z.

(** The dict literal [detection = {'id': ..., ..., 'longitude': ...}], which
    both branches of [detect_landmines] write with the same keys. *)
Definition detection_dict (id : string) (timestamp : Q) (image_path : string)
    (x y w h : Z) (confidence : Q) (classification : string) : dict Q :=
  <[ "id"%string := PyStr id ]>
  (<[ "timestamp"%string := PyTime timestamp ]>
  (<[ "image_path"%string := PyStr image_path ]>
  (<[ "x"%string := PyInt x ]>
  (<[ "y"%string := PyInt y ]>
  (<[ "width"%string := PyInt w ]>
  (<[ "height"%string := PyInt h ]>
  (<[ "confidence"%string := PyFloat confidence ]>
  (<[ "classification"%string := PyStr classification ]>
  (<[ "latitude"%string := PyFloat (34.0522 + inject_Z y / 1000) ]>
  (<[ "longitude"%string := PyFloat (-118.2437 + inject_Z x / 1000) ]> ∅)))))))))).

Record LandmineDetector : Type := mkDetector {
  confidence_threshold : Q;
  detection_size_min : Q;
  detection_size_max : Q;
  circularity_threshold : Q;
  processed_images : gmap string string;
  detection_results : gmap string (list (dict Q));
  sample_image_dir : string;
  predefined_landmines : list (Z * Z * Z * Z * Q * string)
}.

Definition __init__ : LandmineDetector :=
  {| confidence_threshold := 0.7;
     detection_size_min := 15;
     detection_size_max := 120;
     circularity_threshold := 0.65;
     processed_images := ∅;
     detection_results := ∅;
     sample_image_dir := "sample_images";
     predefined_landmines :=
       [ (146, 164, 35, 33, 93.5%Q, "Landmine"%string);
         (396, 139, 37, 35, 93.0%Q, "Landmine"%string);
         (143, 367, 40, 38, 84.0%Q, "Landmine"%string);
         (391, 389, 42, 40, 94.0%Q, "Landmine"%string) ]%Z |}.

(** The detector, the detection table, the uuid source and the readings of
    [datetime.datetime.now()]. *)
Record world : Type := mkWorld {
  self : LandmineDetector;
  db : Db.database;
  uuids : tape string;
  clock : tape Q
}.

Definition fresh_id : Exc world string :=
  fun w => let (i, g) := generate_unique_id (uuids w) in
           (Return i, mkWorld (self w) (db w) g (clock w)).

Definition datetime_now : Exc world Q :=
  fun w => let (t, g) := next (clock w) in
           (Return t, mkWorld (self w) (db w) (uuids w) g).

Definition get_self : Exc world LandmineDetector := fun w => (Return (self w), w).

(** [self.processed_images[image_path] = output_path] and
    [self.detection_results[image_path] = detections]. *)
Definition record_result (image_path output_path : string)
    (detections : list (dict Q)) : Exc world unit :=
  fun w =>
    let d := self w in
    let d' := mkDetector (confidence_threshold d) (detection_size_min d)
                (detection_size_max d) (circularity_threshold d)
                (<[ image_path := output_path ]> (processed_images d))
                (<[ image_path := detections ]> (detection_results d))
                (sample_image_dir d) (predefined_landmines d) in
    (Return tt, mkWorld d' (db w) (uuids w) (clock w)).

Section Cv2.

Set Implicit Arguments.

Variables image contour : Type.

(** What OpenCV, [os] and the database answer. *)
Record cv2 : Type := mkCv2 {
  path_exists : string -> bool;
  imread : string -> option image;
  rectangle : image -> point -> point -> color -> Z -> image;
  putText : image -> string -> point -> color -> image;
  format_label : string -> Q -> string;
  cvtColor : image -> image;
  GaussianBlur : image -> image;
  adaptiveThreshold : image -> image;
  findContours : image -> list contour;
  contourArea : contour -> Q;
  arcLength : contour -> Q;
  boundingRect : contour -> Z * Z * Z * Z;
  np_pi : Q;
  dirname : string -> string;
  basename : string -> string;
  join : string -> string -> string;
  makedirs : string -> outcome unit;
  imwrite : string -> image -> outcome bool;
  insert_error : Db.database -> Db.Detection -> option exn
}.

Variable cv : cv2.

Definition annotation_color (classification : string) : color :=
  if String.eqb classification "Landmine" then (0, 0, 255)%Z else (0, 165, 255)%Z.

(** The loop over [self.predefined_landmines]. *)
Fixpoint annotate_predefined (image_path : string)
    (items : list (Z * Z * Z * Z * Q * string))
    (detections : list (dict Q)) (img : image)
  : Exc world (list (dict Q) * image) :=
  match items with
  | [] => eret (detections, img)
  | (x, y, w, h, confidence, classification) :: rest =>
      (id <- fresh_id ;;
       timestamp <- datetime_now ;;
       let detection :=
         detection_dict id timestamp image_path x y w h confidence classification in
       let detections := detections ++ [detection] in
       let color := annotation_color classification in
       let img := rectangle cv img (x, y) (x + w, y + h)%Z color 2 in
       let text := format_label cv classification confidence in
       let img := putText cv img text (x, y - 10)%Z color in
       annotate_predefined image_path rest detections img)%exc
  end.

(** The loop over the contours of the other images. *)
Fixpoint annotate_contours (d : LandmineDetector) (image_path : string)
    (contours : list contour) (detections : list (dict Q)) (img : image)
  : Exc world (list (dict Q) * image) :=
  match contours with
  | [] => eret (detections, img)
  | c :: rest =>
      let area := contourArea cv c in
      let perimeter := arcLength cv c in
      if Qltb area (detection_size_min d) || Qltb (detection_size_max d) area then
        annotate_contours d image_path rest detections img
      else
        let circularity :=
          if Qltb 0 perimeter then 4 * np_pi cv * area / (perimeter * perimeter)
          else 0 in
        if Qltb circularity (circularity_threshold d) then
          annotate_contours d image_path rest detections img
        else
          let confidence := circularity * 0.7 + (area / detection_size_max d) * 0.3 in
          let confidence := py_min 0.95 (confidence * 100) in
          let '(x, y, w, h) := boundingRect cv c in
          (id <- fresh_id ;;
           timestamp <- datetime_now ;;
           let classification :=
             if Qltb 80 confidence then "Landmine"%string else "Metal Debris"%string in
           let detection :=
             detection_dict id timestamp image_path x y w h confidence classification in
           let detections := detections ++ [detection] in
           let color := annotation_color classification in
           let img := rectangle cv img (x, y) (x + w, y + h)%Z color 2 in
           let text := format_label cv classification confidence in
           let img := putText cv img text (x, y - 10)%Z color in
           annotate_contours d image_path rest detections img)%exc
  end.

(** [for detection in detections: save_detection(detection)]. *)
Definition save_detection (detection : dict Q) : Exc world bool :=
  fun w =>
    let (r, d) := Db.save_detection (insert_error cv) detection (db w) in
    (r, mkWorld (self w) d (uuids w) (clock w)).

Fixpoint save_all (detections : list (dict Q)) : Exc world unit :=
  match detections with
  | [] => eret tt
  | detection :: rest => (_ <- save_detection detection ;; save_all rest)%exc
  end.

(** The [try] body of [detect_landmines]. *)
Definition detect_landmines_body (image_path : string) : Exc world (list (dict Q)) :=
  (_ <- (if path_exists cv image_path then eret tt else raise FileNotFoundError) ;;
   img <- (match imread cv image_path with
           | Some img => eret img
           | None => raise ValueError
           end) ;;
   d <- get_self ;;
   r <- (if contains "landmine_detection1.jpg" image_path then
           annotate_predefined image_path (predefined_landmines d) [] img
         else
           let gray := cvtColor cv img in
           let blurred := GaussianBlur cv gray in
           let thresh := adaptiveThreshold cv blurred in
           let contours := findContours cv thresh in
           annotate_contours d image_path contours [] img) ;;
   let (detections, img) := r : list (dict Q) * image in
   let output_dir := join cv (dirname cv image_path) "processed" in
   _ <- of_outcome (makedirs cv output_dir) ;;
   let output_path := join cv output_dir (basename cv image_path) in
   _ <- of_outcome (imwrite cv output_path img) ;;
   _ <- record_result image_path output_path detections ;;
   _ <- save_all detections ;;
   eret detections)%exc.

(** [detect_landmines]: [except Exception] prints and returns the empty list. *)
Definition detect_landmines (image_path : string) : State world (list (dict Q)) :=
  fun w => match detect_landmines_body image_path w with
           | (Return detections, w') => (detections, w')
           | (Raise e, w') => ([], w')
           end.

Unset Implicit Arguments.

End Cv2.

(** The processed copy of the image can be written: [os.makedirs] does not
    raise, and neither does [cv2.imwrite], whatever the annotated image. *)
Definition writable {image contour : Type} (cv : cv2 image contour)
    (image_path : string) : Prop :=
  let output_dir := join cv (dirname cv image_path) "processed" in
  makedirs cv output_dir = Return tt /\
  forall img, exists b, imwrite cv (join cv output_dir (basename cv image_path)) img = Return b.

(** The pixel box, the confidence and the classification of a detection, and
    its simulated position. *)
Definition box (d : dict Q) :=
  (d !! "x"%string, d !! "y"%string, d !! "width"%string, d !! "height"%string,
   d !! "confidence"%string, d !! "classification"%string).

Definition position (d : dict Q) :=
  (d !! "y"%string, d !! "latitude"%string, d !! "x"%string, d !! "longitude"%string).

(** The position that both branches give a detection at pixel [(x, y)]. *)
Definition position_of (x y : Z) :=
  (Some (PyInt y : pyval Q), Some (PyFloat (34.0522 + inject_Z y / 1000)),
   Some (PyInt x : pyval Q), Some (PyFloat (-118.2437 + inject_Z x / 1000))).

(** The four detections of the demo image, for the identifiers and the clock
    readings that the call consumes. *)
Definition demo_detections (image_path : string) (ids : tape string) (ts : tape Q)
  : list (dict Q) :=
  [ detection_dict (ids 0%nat) (ts 0%nat) image_path 146 164 35 33 93.5 "Landmine";
    detection_dict (ids 1%nat) (ts 1%nat) image_path 396 139 37 35 93.0 "Landmine";
    detection_dict (ids 2%nat) (ts 2%nat) image_path 143 367 40 38 84.0 "Landmine";
    detection_dict (ids 3%nat) (ts 3%nat) image_path 391 389 42 40 94.0 "Landmine" ].

(** A file system and an OpenCV in which every file exists and decodes, and
    whose writes behave as [mk] and [wr] say. *)
Definition simple_cv2 (mk : outcome unit) (wr : outcome bool) : cv2 unit unit :=
  {| path_exists := fun _ => true;
     imread := fun _ => Some tt;
     rectangle := fun i _ _ _ _ => i;
     putText := fun i _ _ _ => i;
     format_label := fun c _ => c;
     cvtColor := fun i => i;
     GaussianBlur := fun i => i;
     adaptiveThreshold := fun i => i;
     findContours := fun _ => [tt];
     contourArea := fun _ => 100;
     arcLength := fun _ => 36;
     boundingRect := fun _ => (10, 20, 11, 11)%Z;
     np_pi := 3.141592653589793;
     dirname := fun _ => "sample_images"%string;
     basename := fun p => p;
     join := fun a b => (a +:+ "/" +:+ b)%string;
     makedirs := fun _ => mk;
     imwrite := fun _ _ => wr;
     insert_error := Db.sqlite_insert_error |}.

Definition demo_world : world :=
  mkWorld __init__ [] (fun n => pretty n) (fun n => inject_Z (Z.of_nat n)).

(** A detection as [save_detection] receives it. *)
Definition sample_detection : dict Q :=
  detection_dict "7f9c" 0 "sample_images/a.jpg" 10 20 30 40 90.0 "Landmine".

End ImageProcessor.

(** * drone_simulator.py: the flying flag *)
Module DroneOps.

Import Drone.
Local Open Scope Q_scope.

(** The operations that change the flying flag. *)
Definition flying_after (o : op) (before : bool) : bool :=
  match o with
  | Takeoff => true
  | Land | EmergencyStop => false
  | _ => before
  end.

(** The invariant behind the ranges of the speed and of the signal. *)
Definition telemetry_inv (s : drone) : Prop :=
  max_speed s = 10.0 /\ 60 <= signal_strength s <= 100 /\ 0 <= speed s <= 10.

(** Every draw of the tape is a value of [random.random()]. *)
Definition unit_draws (g : tape Q) : Prop := forall n, 0 <= g n < 1.

(** [0.8 ^ n], the factor on the offset from home after [n] calls of
    [return_to_home]. *)
Fixpoint shrink (n : nat) : Q :=
  match n with
  | O => 1
  | S n' => 0.8 * shrink n'
  end.

End DroneOps.

(** * detection_simulator.py: the sensor readings *)
Module Sensors.

Import Detection.
Local Open Scope R_scope.

(** Python's [max(a, b)] and [min(a, b)] on the reals. *)
Definition Rpy_max (a b : R) : R := if Rltb a b then b else a.
Definition Rpy_min (a b : R) : R := if Rltb b a then b else a.

(** One of the [for hotspot in ...] loops of the two readings; the loops
    differ in the list, in the factor on the radius and in the full-scale
    strength. *)
Fixpoint strongest (factor scale : R) (hotspots : list hotspot)
    (qlat qlon reading : R) : R :=
  match hotspots with
  | [] => reading
  | h :: rest =>
      let dist := distance qlat qlon (lat h) (lon h) in
      if Rltb dist (radius h * factor) then
        let strength := (1 - dist / (radius h * factor)) * scale in
        strongest factor scale rest qlat qlon (Rpy_max reading strength)
      else strongest factor scale rest qlat qlon reading
  end.

(** The reading of [get_metal_detector_reading] before the noise. *)
Definition metal_signal (qlat qlon : R) : R :=
  let reading := 10 in
  let reading := strongest 1.5 100 landmine_hotspots qlat qlon reading in
  strongest 1.5 75 debris_hotspots qlat qlon reading.

Definition get_metal_detector_reading (qlat qlon : R) : State (tape R) R :=
  (let reading := metal_signal qlat qlon in
   noise <- uniform (-5) 5 ;;
   let reading := reading + noise in
   ret (Rpy_max 0 (Rpy_min 100 reading)))%state.

(** The factor for the hour of [datetime.now()]. *)
Definition time_factor (hour : Z) : R :=
  if ((10 <=? hour) && (hour <=? 16))%Z then 1.2
  else if (((6 <=? hour) && (hour <=? 9)) || ((17 <=? hour) && (hour <=? 19)))%Z then 1.1
  else 1.0.

Definition get_thermal_reading (qlat qlon : R) (hour : Z) : State (tape R) R :=
  (let reading := 5 in
   let reading := strongest 1.2 85 landmine_hotspots qlat qlon reading in
   let reading := reading * time_factor hour in
   noise <- uniform (-3) 3 ;;
   let reading := reading + noise in
   ret (Rpy_max 0 (Rpy_min 100 reading)))%state.

(** The query point is outside the widened range of every hotspot of [hs]. *)
Definition clear_of (factor : R) (hs : list hotspot) (qlat qlon : R) : Prop :=
  Forall (fun h => ~ distance qlat qlon (lat h) (lon h) < radius h * factor) hs.

End Sensors.

(** * db.py: the queries and the events *)
Module DbQueries.

Import Db.

(** The columns that [save_detection] reads with a subscript, and those it
    reads with [.get]. *)
Definition required_keys : list string :=
  ["id"; "timestamp"; "latitude"; "longitude"; "classification"; "confidence"]%string.

Definition optional_keys : list string :=
  ["image_path"; "x"; "y"; "width"; "height"]%string.

(** [Detection.to_dict]. *)
Definition to_dict (r : Detection) : dict Q :=
  <[ "id"%string := id r ]>
  (<[ "timestamp"%string := timestamp r ]>
  (<[ "latitude"%string := latitude r ]>
  (<[ "longitude"%string := longitude r ]>
  (<[ "classification"%string := classification r ]>
  (<[ "confidence"%string := confidence r ]>
  (<[ "image_path"%string := image_path r ]>
  (<[ "x"%string := x r ]>
  (<[ "y"%string := y r ]>
  (<[ "width"%string := width r ]>
  (<[ "height"%string := height r ]> ∅)))))))))).

(** [db.query(Detection).all()] gives the committed rows. *)
Definition get_all_detections (d : database) : list (dict Q) :=
  map to_dict d.

(** The filter [Detection.classification == classification]. *)
Definition classification_is (c : string) (r : Detection) : bool :=
  match classification r with
  | PyStr s => String.eqb s c
  | _ => false
  end.

Definition get_detections_by_classification (c : string) (d : list Detection)
  : list (dict Q) :=
  map to_dict (filter (fun r => classification_is c r = true) d).

(** [get_detection_stats]: the loop over the three classifications fills
    the dict [stats]. *)
Definition count_classification (c : string) (d : list Detection) : nat :=
  length (filter (fun r => classification_is c r = true) d).

Definition get_detection_stats (d : database) : gmap string nat :=
  fold_left (fun stats c => <[ c := count_classification c d ]> stats)
    ["Landmine"; "Metal Debris"; "Safe Zone"]%string ∅.

(** The ORM object of table [events]. *)
Record Event : Type := mkEvent {
  event_id : pyval Q;
  time : pyval Q;
  type : pyval Q;
  message : pyval Q;
  severity : pyval Q
}.

Definition event_table : Type := list Event.

Record event_session : Type := mkEventSession {
  events : event_table;
  pending_events : list Event
}.

(** The call [Event(id=event_data['id'], ...)]. *)
Definition new_Event (event_data : dict Q) : outcome Event :=
  match subscript event_data "id" with
  | Raise e => Raise e
  | Return v_id =>
  match subscript event_data "time" with
  | Raise e => Raise e
  | Return v_time =>
  match subscript event_data "type" with
  | Raise e => Raise e
  | Return v_type =>
  match subscript event_data "message" with
  | Raise e => Raise e
  | Return v_message =>
  match subscript event_data "severity" with
  | Raise e => Raise e
  | Return v_severity =>
      Return (mkEvent v_id v_time v_type v_message v_severity)
  end end end end end.

Definition event_keys : list string :=
  ["id"; "time"; "type"; "message"; "severity"]%string.

Section EventSession.

(** What the database answers to the INSERT of an event. *)
Variable insert_error : event_table -> Event -> option exn.

(** The reading of [datetime.now()] at the INSERT, which column [time]
    takes by its [default=datetime.now] when the event has no time. *)
Variable insert_time : Q.

(** The row that the INSERT writes for an event of the session. *)
Definition stored_event (r : Event) : Event :=
  match time r with
  | PyNone => mkEvent (event_id r) (PyTime insert_time) (type r) (message r) (severity r)
  | _ => r
  end.

Definition EventSessionLocal (d : event_table) : event_session :=
  mkEventSession d [].

Definition add_event (r : Event) : Exc event_session unit :=
  fun s => (Return tt, mkEventSession (events s) (pending_events s ++ [r])).

Fixpoint flush_events (tbl : event_table) (rows : list Event) : outcome event_table :=
  match rows with
  | [] => Return tbl
  | r :: rows' =>
      match insert_error tbl (stored_event r) with
      | None => flush_events (tbl ++ [stored_event r]) rows'
      | Some e => Raise e
      end
  end.

Definition commit_events : Exc event_session unit :=
  fun s => match flush_events (events s) (pending_events s) with
           | Return tbl => (Return tt, mkEventSession tbl [])
           | Raise e => (Raise e, s)
           end.

Definition rollback_events (s : event_session) : event_session :=
  mkEventSession (events s) [].

Definition close_events (s : event_session) : event_table := events s.

Definition save_event_body (event_data : dict Q) : Exc event_session bool :=
  (event <- of_outcome (new_Event event_data) ;;
   _ <- add_event event ;;
   _ <- commit_events ;;
   eret true)%exc.

Definition save_event (event_data : dict Q) : Exc event_table bool :=
  fun d =>
    let db := EventSessionLocal d in
    let (r, db) := save_event_body event_data db in
    let (result, db) :=
      match r with
      | Return b => (Return b, db)
      | Raise e => (Return false, rollback_events db)
      end in
    (result, close_events db).

End EventSession.

(** [Event.to_dict] and [get_all_events]. *)
Definition event_to_dict (r : Event) : dict Q :=
  <[ "id"%string := event_id r ]>
  (<[ "time"%string := time r ]>
  (<[ "type"%string := type r ]>
  (<[ "message"%string := message r ]>
  (<[ "severity"%string := severity r ]> ∅)))).

Definition get_all_events (d : event_table) : list (dict Q) :=
  map event_to_dict d.

End DbQueries.

(** * image_processor.py: the cache of results *)
Module ImageQueries.

Import ImageProcessor.

(** [self.processed_images.get(original_path)]. *)
Definition get_processed_image_path (original_path : string)
    (d : LandmineDetector) : option string :=
  processed_images d !! original_path.

(** [[(d['latitude'], d['longitude']) for d in detections]]: the subscripts
    raise on a dict without the key. *)
Fixpoint coordinates (detections : list (dict Q))
  : outcome (list (pyval Q * pyval Q)) :=
  match detections with
  | [] => Return []
  | d :: rest =>
      match Db.subscript d "latitude" with
      | Raise e => Raise e
      | Return la =>
          match Db.subscript d "longitude" with
          | Raise e => Raise e
          | Return lo =>
              match coordinates rest with
              | Raise e => Raise e
              | Return cs => Return ((la, lo) :: cs)
              end
          end
      end
  end.

Section Cv2.

Context {image contour : Type}.
Variable cv : cv2 image contour.

(** [extract_coordinates_from_image]: from the cached results when the image
    was processed before, otherwise after processing it now. *)
Definition extract_coordinates_from_image (image_path : string)
  : Exc world (list (pyval Q * pyval Q)) :=
  fun w =>
    match detection_results (self w) !! image_path with
    | Some detections => (coordinates detections, w)
    | None =>
        let (detections, w') := detect_landmines cv image_path w in
        (coordinates detections, w')
    end.

End Cv2.

(** The row that [save_detection] builds from a detection of
    [detect_landmines]. *)
Definition row_of (d : dict Q) : Db.Detection :=
  Db.mkDetection (Db.get d "id") (Db.get d "timestamp") (Db.get d "latitude")
    (Db.get d "longitude") (Db.get d "classification") (Db.get d "confidence")
    (Db.get d "image_path") (Db.get d "x") (Db.get d "y") (Db.get d "width")
    (Db.get d "height").

(** A dict written by the dict literal of [detect_landmines]. *)
Definition produced (image_path : string) (d : dict Q) : Prop :=
  exists id ts x y w h c cl, d = detection_dict id ts image_path x y w h c cl.

(** A detection classified as debris with a confidence of at most 0.95. *)
Definition capped_debris (d : dict Q) : Prop :=
  d !! "classification"%string = Some (PyStr "Metal Debris") /\
  exists c, d !! "confidence"%string = Some (PyFloat c) /\ (c <= 0.95)%Q.

(** Where [detect_landmines] writes the processed copy of an image. *)
Definition output_path {image contour : Type} (cv : cv2 image contour)
    (image_path : string) : string :=
  join cv (join cv (dirname cv image_path) "processed") (basename cv image_path).

(** The pair that [extract_coordinates_from_image] makes of a detection. *)
Definition geo (d : dict Q) : pyval Q * pyval Q :=
  (Db.get d "latitude", Db.get d "longitude").

(** A file system without any file. *)
Definition empty_cv2 : cv2 unit unit :=
  let c := simple_cv2 (Return tt) (Return true) in
  mkCv2 (fun _ => false) (imread c) (rectangle c) (putText c) (format_label c)
    (cvtColor c) (GaussianBlur c) (adaptiveThreshold c) (findContours c)
    (contourArea c) (arcLength c) (boundingRect c) (np_pi c) (dirname c)
    (basename c) (join c) (makedirs c) (imwrite c) (insert_error c).

(** A database that takes every row. *)
Definition permissive {image contour : Type} (cv : cv2 image contour) : Prop :=
  forall tbl r, insert_error cv tbl r = None.

End ImageQueries.

(** * utils.py *)
Module Utils.

Local Open Scope Z_scope.

Definition get_status_color (status : string) : string :=
  if String.eqb status "Online" || String.eqb status "Connected" then "green"
  else if String.eqb status "Warning" || String.eqb status "Degraded" then "orange"
  else if String.eqb status "Offline" || String.eqb status "Disconnected"
          || String.eqb status "Error" then "red"
  else "gray".

(** A [timedelta] in its normal form: [0 <= seconds < 86400] and
    [0 <= microseconds < 1000000], the sign is in [days]. *)
Record timedelta : Type := mkDelta {
  days : Z;
  seconds : Z;
  microseconds : Z
}.

(** [a - b] for two datetimes given in microseconds since a common origin. *)
Definition datetime_sub (a b : Z) : timedelta :=
  let us := a - b in
  {| days := us / 86400000000;
     seconds := (us mod 86400000000) / 1000000;
     microseconds := us mod 1000000 |}.

Section FormatTimestamp.

(** [timestamp.strftime("%Y-%m-%d %H:%M")]. *)
Variable strftime : Z -> string.

(** [format_timestamp]; [now] is the reading of [datetime.now()]. *)
Definition format_timestamp (now : Z) (timestamp : option Z) : string :=
  match timestamp with
  | None => "N/A"
  | Some ts =>
      let delta := datetime_sub now ts in
      if days delta =? 0 then
        if seconds delta <? 60 then "Just now"
        else if seconds delta <? 3600 then
          let minutes := seconds delta / 60 in
          (pretty minutes +:+ "m ago")%string
        else
          let hours := seconds delta / 3600 in
          (pretty hours +:+ "h ago")%string
      else if days delta =? 1 then "Yesterday"
      else strftime ts
  end.

End FormatTimestamp.

End Utils.

(** * Facts about the comparisons *)

Local Open Scope Q_scope.

Lemma Qltb_true a b : Qltb a b = true <-> a < b.
Proof.
  unfold Qltb. rewrite negb_true_iff. split.
  - intros H. apply Qnot_le_lt. intros Hle. apply Qle_bool_iff in Hle. congruence.
  - intros H. destruct (Qle_bool b a) eqn:E; [|reflexivity].
    apply Qle_bool_iff in E. exfalso. apply (Qlt_not_le _ _ H E).
Qed.

Lemma Qltb_false a b : Qltb a b = false <-> b <= a.
Proof.
  unfold Qltb. rewrite negb_false_iff. apply Qle_bool_iff.
Qed.

Lemma py_max_cases a b : (a < b /\ py_max a b = b) \/ (b <= a /\ py_max a b = a).
Proof.
  unfold py_max. destruct (Qltb a b) eqn:E.
  - left. split; [now apply Qltb_true | reflexivity].
  - right. split; [now apply Qltb_false | reflexivity].
Qed.

Lemma py_max_Qmax a b : py_max a b == Qmax a b.
Proof.
  destruct (py_max_cases a b) as [[H ->]|[H ->]].
  - symmetry. apply Q.max_r. now apply Qlt_le_weak.
  - symmetry. now apply Q.max_l.
Qed.

(** * The drone simulator *)
Module DroneFacts.
Import Drone.

(** Draining a non-negative amount from a non-negative battery. *)
Lemma consume_bounds amount s :
  0 <= amount -> 0 <= battery_level s ->
  0 <= battery_level (_consume_battery amount s) <= battery_level s.
Proof.
  intros Ha Hb. unfold _consume_battery. cbn.
  destruct (py_max_cases 0 (battery_level s - amount)) as [[H ->]|[H ->]]; lra.
Qed.

(** What [update_status] does to the flying flag, the altitude and its
    limits, the stored clock reading and the battery. *)
Lemma update_status_frame t s g :
  let s' := fst (update_status t s g) in
  is_flying s' = is_flying s /\ altitude s' = altitude s /\
  max_altitude s' = max_altitude s /\ min_altitude s' = min_altitude s /\
  last_update_time s' = t /\
  battery_level s' =
    py_max 0 (battery_level s -
              (if is_flying s then 0.05 else 0.01) * (t - last_update_time s)).
Proof.
  unfold update_status, bind, ret, uniform, random, next, _consume_battery.
  destruct s as [il ig la lo al sp hd b sg lt fl ms mxa mna mv]. cbn.
  destruct fl; cbn; [destruct (Qltb (g 0%nat) 0.3); cbn|]; repeat split; reflexivity.
Qed.

Lemma consume_bounds_from amount s s0 :
  0 <= amount -> battery_level s = battery_level s0 -> 0 <= battery_level s0 ->
  0 <= battery_level (_consume_battery amount s) <= battery_level s0.
Proof. intros Ha <- Hb. now apply consume_bounds. Qed.

Lemma step_battery o s g :
  0 <= battery_level s -> clock_ok o s ->
  0 <= battery_level (fst (run o (s, g))) <= battery_level s.
Proof.
  intros Hb Hc.
  destruct o; cbn [run fst];
    try (unfold takeoff, land, emergency_stop; cbn; lra);
    try (unfold move_forward, move_backward, move_left, move_right, return_to_home,
           move_up, move_down;
         match goal with |- context [if ?c then _ else _] => destruct c end;
         [apply consume_bounds_from; [lra | reflexivity | exact Hb] | lra]).
  cbn in Hc.
  destruct (update_status_frame current_time s g) as (_ & _ & _ & _ & _ & ->).
  match goal with |- context [py_max 0 ?x] =>
    destruct (py_max_cases 0 x) as [[H ->]|[H ->]] end;
    destruct (is_flying s); nra.
Qed.

(** ** A short flight *)

Example short_flight :
  let s := fst (run_all [Takeoff; MoveForward; MoveUp; MoveRight]
                  (__init__ default_lat default_lng default_altitude 0, const_tape 0.5)) in
  latitude s == 0.0001 /\ longitude s == 0.0001 /\ altitude s == 11 /\
  battery_level s == 99.3 /\ heading s = 90%Z /\ is_flying s = true.
Proof. vm_compute. repeat split. Qed.

Example climb_stops_at_max_altitude :
  altitude (fst (run_all (Takeoff :: repeat MoveUp 60)
                   (__init__ default_lat default_lng default_altitude 0, const_tape 0.5)))
  == 50.
Proof. vm_compute. reflexivity. Qed.

Example descent_stops_at_min_altitude :
  altitude (fst (run_all (Takeoff :: repeat MoveDown 60)
                   (__init__ default_lat default_lng default_altitude 0, const_tape 0.5)))
  == 5.
Proof. vm_compute. reflexivity. Qed.

Example update_in_flight :
  let s := fst (update_status 20 (takeoff (__init__ default_lat default_lng default_altitude 10))
                  (const_tape 0.1)) in
  battery_level s == 99.5 /\ latitude s == -0.000008 /\ longitude s == -0.000008 /\
  speed s == 0.84 /\ signal_strength s == 93.4 /\ last_update_time s == 20.
Proof. vm_compute. repeat split. Qed.

(** ** Battery *)

Lemma battery_range_mono lat lng alt w :
  reachable_mono lat lng alt w -> 0 <= battery_level (fst w) <= 100.
Proof.
  induction 1 as [now g | [s g] o Hr IH Hc].
  - cbn. lra.
  - cbn [fst] in IH, Hc. destruct (step_battery o s g) as [H1 H2]; [lra | exact Hc | lra].
Qed.

(** C6, as amended: as long as [time.time()] never reads earlier than the
    reading kept in [last_update_time], every state reachable from a freshly
    constructed simulator by the public operations has
    [0 <= battery_level <= 100]. *)
Theorem battery_level_in_range :
  forall lat lng alt w,
    reachable_mono lat lng alt w ->
    0 <= battery_level (fst w) <= 100.
Proof. intros lat lng alt w H. exact (battery_range_mono lat lng alt w H). Qed.

Lemma battery_level_in_range_witness :
  0 <= battery_level
         (fst (run (UpdateStatus 12)
                 (run MoveForward
                    (run Takeoff (__init__ 0 0 10 10, const_tape 0.5))))) <= 100.
Proof.
  apply (battery_level_in_range 0 0 10).
  apply reachm_step; [apply reachm_step; [apply reachm_step; [apply reachm_init|]|]|].
  - exact I.
  - exact I.
  - vm_compute. discriminate.
Defined.

(** C6 fails as stated: a simulator built with the default arguments when the
    clock reads 10, then [update_status] when the clock reads 0 (the system
    clock was set back), has battery level 100.1. *)
Lemma battery_level_above_100 :
  let w := run (UpdateStatus 0)
             (__init__ default_lat default_lng default_altitude 10, const_tape 0.5) in
  reachable default_lat default_lng default_altitude w /\
  ~ (0 <= battery_level (fst w) <= 100).
Proof.
  split.
  - apply reach_step, reach_init.
  - vm_compute. intros [_ H]. apply H. reflexivity.
Qed.

(** C9, as amended: from a state whose battery level is not negative, no
    public operation raises the battery level, provided the clock reading of
    [update_status] is not earlier than [last_update_time]. *)
Theorem battery_level_non_increasing :
  forall o s g,
    0 <= battery_level s -> clock_ok o s ->
    battery_level (fst (run o (s, g))) <= battery_level s.
Proof. intros o s g Hb Hc. apply (step_battery o s g Hb Hc). Qed.

Lemma battery_level_non_increasing_witness :
  battery_level (fst (run (UpdateStatus 7) (takeoff (__init__ 0 0 10 5), const_tape 0.5)))
  <= battery_level (takeoff (__init__ 0 0 10 5)).
Proof.
  apply (battery_level_non_increasing (UpdateStatus 7)).
  - vm_compute. discriminate.
  - vm_compute. discriminate.
Defined.

(** C9 fails as stated, in two ways: [update_status] recharges the battery
    when the clock was set back, and any draining operation raises a negative
    battery level to 0. *)
Lemma battery_level_can_rise :
  (let s := __init__ default_lat default_lng default_altitude 10 in
   ~ battery_level (fst (run (UpdateStatus 0) (s, const_tape 0.5))) <= battery_level s) /\
  (let s := set_battery_level (-5) (takeoff (__init__ default_lat default_lng default_altitude 10)) in
   ~ battery_level (fst (run MoveForward (s, const_tape 0.5))) <= battery_level s).
Proof.
  split; vm_compute; intros H; apply H; reflexivity.
Qed.

(** ** Frame and movement *)

(** C7: on the ground, the seven movement operations change nothing. *)
Theorem grounded_moves_are_noops :
  forall s,
    is_flying s = false ->
    move_forward s = s /\ move_backward s = s /\ move_left s = s /\
    move_right s = s /\ move_up s = s /\ move_down s = s /\ return_to_home s = s.
Proof.
  intros s H.
  unfold move_forward, move_backward, move_left, move_right, move_up, move_down,
    return_to_home.
  rewrite H. cbn. repeat split; reflexivity.
Qed.

Lemma grounded_moves_are_noops_witness :
  let s := __init__ 0 0 10 0 in
  move_forward s = s /\ move_backward s = s /\ move_left s = s /\
  move_right s = s /\ move_up s = s /\ move_down s = s /\ return_to_home s = s.
Proof. apply (grounded_moves_are_noops (__init__ 0 0 10 0)). reflexivity. Defined.

(** C3: in flight, a horizontal move shifts one coordinate by
    [movement_step = 0.0001], sets speed 2.0 and the heading of its direction,
    drains 0.2 of battery (not below 0) and keeps the other coordinate, the
    altitude and the flying flag. *)
Theorem horizontal_moves :
  forall s,
    is_flying s = true -> movement_step s == 0.0001 ->
    (latitude (move_forward s) == latitude s + 0.0001 /\
     speed (move_forward s) = 2.0 /\ heading (move_forward s) = 0%Z /\
     battery_level (move_forward s) == Qmax 0 (battery_level s - 0.2) /\
     longitude (move_forward s) = longitude s /\
     altitude (move_forward s) = altitude s /\
     is_flying (move_forward s) = is_flying s) /\
    (latitude (move_backward s) == latitude s - 0.0001 /\
     speed (move_backward s) = 2.0 /\ heading (move_backward s) = 180%Z /\
     battery_level (move_backward s) == Qmax 0 (battery_level s - 0.2) /\
     longitude (move_backward s) = longitude s /\
     altitude (move_backward s) = altitude s /\
     is_flying (move_backward s) = is_flying s) /\
    (longitude (move_left s) == longitude s - 0.0001 /\
     speed (move_left s) = 2.0 /\ heading (move_left s) = 270%Z /\
     battery_level (move_left s) == Qmax 0 (battery_level s - 0.2) /\
     latitude (move_left s) = latitude s /\
     altitude (move_left s) = altitude s /\
     is_flying (move_left s) = is_flying s) /\
    (longitude (move_right s) == longitude s + 0.0001 /\
     speed (move_right s) = 2.0 /\ heading (move_right s) = 90%Z /\
     battery_level (move_right s) == Qmax 0 (battery_level s - 0.2) /\
     latitude (move_right s) = latitude s /\
     altitude (move_right s) = altitude s /\
     is_flying (move_right s) = is_flying s).
Proof.
  intros s Hf Hm.
  unfold move_forward, move_backward, move_left, move_right. rewrite Hf.
  repeat split; cbn; try reflexivity; try exact Hf;
    try (rewrite Hm; reflexivity); apply py_max_Qmax.
Qed.

Lemma horizontal_moves_witness :
  latitude (move_forward away) == latitude away + 0.0001.
Proof.
  destruct (horizontal_moves away) as [[H _] _];
    [reflexivity | reflexivity | exact H].
Defined.

(** ** Altitude *)

Lemma altitude_inv_init lat lng alt now : altitude_inv (__init__ lat lng alt now).
Proof. repeat split. cbn. discriminate. Qed.

Lemma altitude_inv_frame s s' :
  is_flying s' = is_flying s -> altitude s' = altitude s ->
  max_altitude s' = max_altitude s -> min_altitude s' = min_altitude s ->
  altitude_inv s -> altitude_inv s'.
Proof.
  intros Hf Ha Hx Hn. unfold altitude_inv. rewrite Hf, Ha, Hx, Hn. trivial.
Qed.

Lemma altitude_inv_grounded s s' :
  is_flying s' = false ->
  max_altitude s' = max_altitude s -> min_altitude s' = min_altitude s ->
  altitude_inv s -> altitude_inv s'.
Proof.
  intros Hf Hx Hn (Hmax & Hmin & _). unfold altitude_inv.
  rewrite Hf, Hx, Hn. repeat split; try assumption. intros H; discriminate H.
Qed.

Ltac framed s :=
  match goal with
  | |- altitude_inv (if ?c then _ else _) =>
      destruct c; [apply (altitude_inv_frame s); trivial | assumption]
  end.

Lemma altitude_inv_step o s g :
  altitude_inv s -> altitude_inv (fst (run o (s, g))).
Proof.
  intros Hinv. pose proof Hinv as (Hmax & Hmin & Hfly).
  destruct o; cbn [run fst].
  - (* takeoff *)
    repeat split; cbn; try assumption. intros _. exists 10%Z. split; [lia | reflexivity].
  - (* land *)
    apply (altitude_inv_grounded s); trivial.
  - unfold move_forward. framed s.
  - unfold move_backward. framed s.
  - unfold move_left. framed s.
  - unfold move_right. framed s.
  - (* move_up *)
    unfold move_up. destruct (is_flying s && Qltb (altitude s) (max_altitude s))%bool eqn:E;
      [|assumption].
    apply andb_true_iff in E. destruct E as [Ef Elt].
    apply Qltb_true in Elt. rewrite Hmax in Elt.
    destruct (Hfly Ef) as (k & Hk & Hq).
    repeat split; cbn; try assumption. intros _.
    exists (k + 1)%Z. rewrite Hq in Elt.
    assert (k < 50)%Z by (unfold Qlt in Elt; cbn in Elt; lia).
    split; [lia|]. rewrite Hq. unfold Qeq. cbn. lia.
  - (* move_down *)
    unfold move_down. destruct (is_flying s && Qltb (min_altitude s) (altitude s))%bool eqn:E;
      [|assumption].
    apply andb_true_iff in E. destruct E as [Ef Elt].
    apply Qltb_true in Elt. rewrite Hmin in Elt.
    destruct (Hfly Ef) as (k & Hk & Hq).
    repeat split; cbn; try assumption. intros _.
    exists (k - 1)%Z. rewrite Hq in Elt.
    assert (5 < k)%Z by (unfold Qlt in Elt; cbn in Elt; lia).
    split; [lia|]. rewrite Hq. unfold Qeq. cbn. lia.
  - unfold return_to_home. framed s.
  - (* emergency_stop *)
    apply (altitude_inv_grounded s); trivial.
  - destruct (update_status_frame current_time s g) as (Hf & Ha & Hx & Hn & _).
    apply (altitude_inv_frame s); assumption.
Qed.

Lemma altitude_inv_reachable lat lng alt w :
  reachable lat lng alt w -> altitude_inv (fst w).
Proof.
  induction 1 as [now g | [s g] o Hr IH].
  - apply altitude_inv_init.
  - apply altitude_inv_step. exact IH.
Qed.

(** C2: in every state reachable from [DroneSimulator()] by the public
    operations, a flying drone has [5.0 <= altitude <= 50.0]. *)
Theorem flying_altitude_in_range :
  forall w,
    reachable default_lat default_lng default_altitude w ->
    is_flying (fst w) = true ->
    5.0 <= altitude (fst w) <= 50.0.
Proof.
  intros w Hr Hf.
  destruct (altitude_inv_reachable _ _ _ w Hr) as (_ & _ & H).
  destruct (H Hf) as (k & [Hlo Hhi] & Hq). rewrite Hq.
  unfold Qle. cbn. lia.
Qed.

Lemma flying_altitude_in_range_witness :
  5.0 <= altitude
           (fst (run MoveUp
                   (run (UpdateStatus 3)
                      (run Takeoff
                         (__init__ default_lat default_lng default_altitude 1,
                          const_tape 0.5))))) <= 50.0.
Proof.
  apply flying_altitude_in_range.
  - apply reach_step, reach_step, reach_step, reach_init.
  - reflexivity.
Defined.

(** ** Return to home *)

Lemma return_to_home_position s :
  is_flying s = true ->
  latitude (return_to_home s) == 0.8 * latitude s + 0.2 * initial_lat s /\
  longitude (return_to_home s) == 0.8 * longitude s + 0.2 * initial_lng s /\
  initial_lat (return_to_home s) = initial_lat s /\
  initial_lng (return_to_home s) = initial_lng s /\
  is_flying (return_to_home s) = true.
Proof.
  intros Hf. unfold return_to_home. rewrite Hf. cbn.
  repeat split; try lra. exact Hf.
Qed.

Lemma return_to_home_not_home s :
  is_flying s = true -> ~ at_home s -> ~ at_home (return_to_home s).
Proof.
  intros Hf Hn [H1 H2].
  destruct (return_to_home_position s Hf) as (Hla & Hlo & Hil & Hig & _).
  rewrite Hil, Hla in H1. rewrite Hig, Hlo in H2.
  apply Hn. split; lra.
Qed.

Lemma return_to_home_n_not_home n :
  forall s, is_flying s = true -> ~ at_home s -> ~ at_home (return_to_home_n n s).
Proof.
  induction n as [|n IH]; intros s Hf Hn; cbn [return_to_home_n].
  - exact Hn.
  - apply IH.
    + apply (return_to_home_position s Hf).
    + apply return_to_home_not_home; assumption.
Qed.

Lemma return_to_home_distance s :
  is_flying s = true ->
  home_distance (return_to_home s) = (0.8 * home_distance s)%R.
Proof.
  intros Hf.
  destruct (return_to_home_position s Hf) as (Hla & Hlo & Hil & Hig & _).
  unfold home_distance. rewrite Hil, Hig.
  set (a := latitude s - initial_lat s).
  set (b := longitude s - initial_lng s).
  assert (E : (latitude (return_to_home s) - initial_lat s) *
              (latitude (return_to_home s) - initial_lat s) +
              (longitude (return_to_home s) - initial_lng s) *
              (longitude (return_to_home s) - initial_lng s)
              == (0.8 * 0.8) * (a * a + b * b)).
  { rewrite Hla, Hlo. unfold a, b. ring. }
  rewrite (Qeq_eqR _ _ E), Q2R_mult.
  assert (Hc : Q2R (0.8 * 0.8) = (0.8 * 0.8)%R).
  { rewrite Q2R_mult. unfold Q2R. cbn. lra. }
  rewrite Hc, sqrt_mult_alt by lra.
  rewrite sqrt_square by lra. reflexivity.
Qed.

(** C10: in flight, [return_to_home] replaces the position by 0.8 times the
    position plus 0.2 times home; a drone away from home is still away from
    home after any number of calls; and each call multiplies the distance to
    home by 0.8. *)
Theorem return_to_home_contracts :
  forall s,
    is_flying s = true ->
    (latitude (return_to_home s) == 0.8 * latitude s + 0.2 * initial_lat s /\
     longitude (return_to_home s) == 0.8 * longitude s + 0.2 * initial_lng s) /\
    (~ at_home s -> forall n, ~ at_home (return_to_home_n n s)) /\
    home_distance (return_to_home s) = (0.8 * home_distance s)%R.
Proof.
  intros s Hf. split; [|split].
  - destruct (return_to_home_position s Hf) as (H1 & H2 & _). split; assumption.
  - intros Hn n. apply return_to_home_n_not_home; assumption.
  - apply return_to_home_distance. exact Hf.
Qed.

Lemma return_to_home_contracts_witness :
  ~ at_home (return_to_home_n 25 away).
Proof.
  destruct (return_to_home_contracts away) as (_ & H & _); [reflexivity|].
  apply H. intros [H1 _]. vm_compute in H1. discriminate.
Defined.
End DroneFacts.

(** * The detection simulator *)
Module DetectionFacts.
Import Detection.
Local Open Scope R_scope.

Lemma Rltb_true a b : Rltb a b = true <-> a < b.
Proof. unfold Rltb. destruct (Rlt_dec a b); split; intros; try discriminate; tauto. Qed.

Lemma Rltb_false a b : Rltb a b = false <-> ~ a < b.
Proof. unfold Rltb. destruct (Rlt_dec a b); split; intros; try discriminate; tauto. Qed.

(** ** The three loops follow the scan of the specification *)

Lemma scan_hotspots_run qlat qlon label hs :
  forall g,
    scan_run qlat qlon (tagged label hs) g
      (fst (scan_hotspots label hs qlat qlon g))
      (snd (scan_hotspots label hs qlat qlon g)).
Proof.
  induction hs as [|h hs IH]; intros g; cbn [scan_hotspots tagged map].
  - apply scan_done.
  - destruct (Rltb (distance qlat qlon (lat h) (lon h)) (radius h)) eqn:Ed.
    + apply Rltb_true in Ed. unfold bind, random, next.
      destruct (Rltb (g 0%nat) (probability h)) eqn:Ep.
      * apply Rltb_true in Ep. cbn. apply scan_hit; assumption.
      * apply Rltb_false in Ep. apply scan_miss; [assumption | assumption | apply IH].
    + apply Rltb_false in Ed. apply scan_far; [assumption | apply IH].
Qed.

Lemma scan_run_app qlat qlon hs1 hs2 g g1 r g2 :
  scan_run qlat qlon hs1 g None g1 ->
  scan_run qlat qlon hs2 g1 r g2 ->
  scan_run qlat qlon (hs1 ++ hs2) g r g2.
Proof.
  intros H1 H2. remember None as r1 eqn:Er.
  induction H1; cbn [app]; try discriminate.
  - exact H2.
  - apply scan_far; auto.
  - apply scan_miss; auto.
Qed.

Lemma scan_run_app_hit qlat qlon hs1 hs2 g x g1 :
  scan_run qlat qlon hs1 g (Some x) g1 ->
  scan_run qlat qlon (hs1 ++ hs2) g (Some x) g1.
Proof.
  intros H1. remember (Some x) as r1 eqn:Er.
  induction H1; cbn [app]; try discriminate.
  - apply scan_far; auto.
  - apply scan_miss; auto.
  - apply scan_hit; auto.
Qed.

(** A hit comes from a hotspot in range whose draw was below its
    probability. *)
Lemma scan_run_hit qlat qlon hs g label conf g1 :
  scan_run qlat qlon hs g (Some (label, conf)) g1 ->
  exists h n,
    In (label, h) hs /\
    distance qlat qlon (lat h) (lon h) < radius h /\
    g n < probability h /\
    conf = probability h * 100.
Proof.
  intros H. remember (Some (label, conf)) as r eqn:Er.
  induction H as [g | l h hs g r g' Hd H IH | l h hs g r g' Hd Hp H IH | l h hs g Hd Hp];
    try discriminate.
  - destruct (IH Er) as (h' & n & Hin & H1 & H2 & H3).
    exists h', n. repeat split; auto. now right.
  - destruct (IH Er) as (h' & n & Hin & H1 & H2 & H3).
    exists h', (S n). repeat split; auto. now right.
  - inversion Er; subst. exists h, 0%nat. repeat split; auto. now left.
Qed.


Lemma choices_label g :
  In (fst (choices labels [0.2; 0.5; 0.3] g)) labels.
Proof.
  unfold choices, labels, bind, ret, random, next. cbn.
  destruct (Rltb _ _); [cbn; tauto|].
  destruct (Rltb _ _); cbn; tauto.
Qed.

Lemma random_detection_cases g :
  unit_draws g ->
  (g 0%nat < 0.05 /\
   exists t c, fst (random_detection g) = (Some t, c) /\ In t labels /\ 70 <= c <= 95) \/
  (~ g 0%nat < 0.05 /\ fst (random_detection g) = (None, 0)).
Proof.
  intros Hu. unfold random_detection, bind, random, next.
  destruct (Rltb (g 0%nat) 0.05) eqn:E.
  - apply Rltb_true in E. left. split; [exact E|].
    fold labels.
    pose proof (choices_label (fun n => g (S n))) as Hl.
    destruct (choices labels [0.2; 0.5; 0.3] (fun n => g (S n))) as [t g2] eqn:Ec.
    unfold uniform, bind, random, next, ret. cbn [fst].
    eexists _, _. split; [reflexivity|]. split; [exact Hl|].
    assert (Hg : 0 <= g2 0%nat < 1).
    { unfold choices, bind, random, next, ret in Ec. inversion Ec; subst. apply Hu. }
    nra.
  - apply Rltb_false in E. right. split; [exact E | reflexivity].
Qed.

(** The outcome of the three loops, as one scan over [scan_order]. *)
Lemma loops_run qlat qlon g :
  exists r g1,
    scan_run qlat qlon scan_order g r g1 /\
    match r with
    | Some (label, conf) => is_near_hotspot qlat qlon g = ((Some label, conf), g1)
    | None => is_near_hotspot qlat qlon g = random_detection g1
    end.
Proof.
  unfold is_near_hotspot, scan_order, bind.
  pose proof (scan_hotspots_run qlat qlon "Landmine" landmine_hotspots g) as H1.
  destruct (scan_hotspots "Landmine" landmine_hotspots qlat qlon g) as [[[l1 c1]|] g1].
  { exists (Some (l1, c1)), g1. split; [|reflexivity].
    apply scan_run_app_hit. exact H1. }
  cbn [fst snd] in H1.
  pose proof (scan_hotspots_run qlat qlon "Metal Debris" debris_hotspots g1) as H2.
  destruct (scan_hotspots "Metal Debris" debris_hotspots qlat qlon g1) as [[[l2 c2]|] g2].
  { exists (Some (l2, c2)), g2. split; [|reflexivity].
    apply (scan_run_app _ _ _ _ _ _ _ _ H1). apply scan_run_app_hit. exact H2. }
  cbn [fst snd] in H2.
  pose proof (scan_hotspots_run qlat qlon "Safe Zone" safe_hotspots g2) as H3.
  destruct (scan_hotspots "Safe Zone" safe_hotspots qlat qlon g2) as [[[l3 c3]|] g3];
    cbn [fst snd] in H3.
  { exists (Some (l3, c3)), g3. split; [|reflexivity].
    apply (scan_run_app _ _ _ _ _ _ _ _ H1). apply (scan_run_app _ _ _ _ _ _ _ _ H2).
    exact H3. }
  exists None, g3. split; [|reflexivity].
  apply (scan_run_app _ _ _ _ _ _ _ _ H1). apply (scan_run_app _ _ _ _ _ _ _ _ H2).
  exact H3.
Qed.

Lemma scan_run_tape qlat qlon hs g r g1 :
  scan_run qlat qlon hs g r g1 -> unit_draws g -> unit_draws g1.
Proof.
  induction 1; intros Hu; auto.
  - apply IHscan_run. intros n. apply (Hu (S n)).
  - intros n. apply (Hu (S n)).
Qed.

(** The random classification: the draw, scaled by the total weight 1, is
    located among the cumulative weights 0.2 and 0.7. *)
Lemma choices_draw g :
  snd (choices labels [0.2; 0.5; 0.3] g) = snd (next g) /\
  ((g 0%nat < 0.2 /\ fst (choices labels [0.2; 0.5; 0.3] g) = "Landmine"%string) \/
   (0.2 <= g 0%nat < 0.7 /\
    fst (choices labels [0.2; 0.5; 0.3] g) = "Metal Debris"%string) \/
   (0.7 <= g 0%nat /\ fst (choices labels [0.2; 0.5; 0.3] g) = "Safe Zone"%string)).
Proof.
  unfold choices, labels, accumulate, bind, ret, random, next.
  cbn [accumulate_from List.last length Nat.sub firstn bisect fst snd].
  split; [reflexivity|].
  destruct (Rltb (g 0%nat * (0 + 0.2 + 0.5 + 0.3)) (0 + 0.2)) eqn:E1.
  { apply Rltb_true in E1. left. split; [lra | reflexivity]. }
  apply Rltb_false in E1.
  destruct (Rltb (g 0%nat * (0 + 0.2 + 0.5 + 0.3)) (0 + 0.2 + 0.5)) eqn:E2.
  { apply Rltb_true in E2. right. left. split; [lra | reflexivity]. }
  apply Rltb_false in E2. right. right. split; [lra | reflexivity].
Qed.

(** The random detection, draw by draw: the first draw opens it when it is
    below 0.05, the second chooses the classification and the third is
    carried from [0, 1) onto [70, 95]. *)
Lemma random_detection_exact g :
  g 0%nat < 0.05 ->
  exists t,
    fst (random_detection g) = (Some t, 70 + (95 - 70) * g 2%nat) /\
    In t labels /\
    (t = "Landmine"%string <-> g 1%nat < 0.2) /\
    (t = "Metal Debris"%string <-> 0.2 <= g 1%nat < 0.7) /\
    (t = "Safe Zone"%string <-> 0.7 <= g 1%nat).
Proof.
  intros H0. unfold random_detection, bind, random, next.
  apply Rltb_true in H0. rewrite H0. fold labels.
  pose proof (choices_label (fun n => g (S n))) as Hl.
  destruct (choices_draw (fun n => g (S n))) as [Hs Ht].
  destruct (choices labels [0.2; 0.5; 0.3] (fun n => g (S n))) as [t g2].
  cbn [fst snd] in Hs, Ht, Hl. subst g2.
  unfold uniform, bind, random, next, ret. cbn [fst].
  exists t. split; [reflexivity|]. split; [exact Hl|].
  destruct Ht as [[Hu ->] | [[Hu ->] | [Hu ->]]];
    repeat split; intros; try discriminate; try lra; try reflexivity.
Qed.

(** C1: [is_near_hotspot] goes through the landmine, the debris and the safe
    hotspots in this order; it answers from a hotspot only when the
    Euclidean distance [sqrt ((qlat - lat) ^ 2 + (qlon - lon) ^ 2)] from the
    query point to the centre is strictly less than the radius and the draw
    for that hotspot is below its probability, and then with that
    probability times 100; when no hotspot matches, the next draw decides
    between a random detection (the draw is below 0.05) and [(None, 0)]. The
    confidence of a random detection is [70 + (95 - 70) * u] for the draw
    [u] of [random.uniform], a value in [70, 95], and its classification is
    chosen by a draw with the weights 0.2, 0.5 and 0.3. *)
Theorem is_near_hotspot_spec :
  forall qlat qlon g,
    unit_draws g ->
    exists r g1,
      scan_run qlat qlon scan_order g r g1 /\
      match r with
      | Some (label, conf) =>
          is_near_hotspot qlat qlon g = ((Some label, conf), g1) /\
          exists h n,
            In (label, h) scan_order /\
            sqrt ((qlat - lat h) ^ 2 + (qlon - lon h) ^ 2) < radius h /\
            g n < probability h /\
            conf = probability h * 100
      | None =>
          (g1 0%nat < 0.05 /\
           exists t c,
             fst (is_near_hotspot qlat qlon g) = (Some t, c) /\
             In t labels /\ 70 <= c <= 95 /\
             c = 70 + (95 - 70) * g1 2%nat /\
             (t = "Landmine"%string <-> g1 1%nat < 0.2) /\
             (t = "Metal Debris"%string <-> 0.2 <= g1 1%nat < 0.7) /\
             (t = "Safe Zone"%string <-> 0.7 <= g1 1%nat)) \/
          (~ g1 0%nat < 0.05 /\ fst (is_near_hotspot qlat qlon g) = (None, 0))
      end.
Proof.
  intros qlat qlon g Hu.
  destruct (loops_run qlat qlon g) as (r & g1 & Hrun & Hres).
  exists r, g1. split; [exact Hrun|].
  destruct r as [[label conf]|].
  - split; [exact Hres|]. apply (scan_run_hit _ _ _ _ _ _ _ Hrun).
  - rewrite Hres.
    pose proof (scan_run_tape _ _ _ _ _ _ Hrun Hu) as Hu1.
    destruct (Rlt_dec (g1 0%nat) 0.05) as [H0|H0].
    + left. split; [exact H0|].
      destruct (random_detection_exact g1 H0) as (t & -> & Hl & H1 & H2 & H3).
      exists t, (70 + (95 - 70) * g1 2%nat).
      pose proof (Hu1 2%nat).
      split; [reflexivity|]. split; [exact Hl|]. split; [lra|].
      split; [reflexivity|]. split; [exact H1|]. split; [exact H2 | exact H3].
    + right. split; [exact H0|].
      unfold random_detection, bind, random, next.
      apply Rltb_false in H0. rewrite H0. reflexivity.
Qed.

(** ** check_for_detection *)

Lemma scan_hotspots_label label hs qlat qlon g t c :
  fst (scan_hotspots label hs qlat qlon g) = Some (t, c) -> t = label.
Proof.
  revert g. induction hs as [|h hs IH]; intros g; cbn [scan_hotspots].
  - discriminate.
  - destruct (Rltb _ _); [|apply IH].
    unfold bind, random, next. destruct (Rltb _ _); [|apply IH].
    cbn. intros H. inversion H. reflexivity.
Qed.

Lemma is_near_hotspot_label qlat qlon g t :
  fst (fst (is_near_hotspot qlat qlon g)) = Some t -> In t labels.
Proof.
  unfold is_near_hotspot, bind.
  destruct (scan_hotspots "Landmine" _ _ _ g) as [[[l1 c1]|] g1] eqn:E1.
  { cbn. intros H. inversion H; subst.
    assert (t = "Landmine"%string) as ->
      by (apply (scan_hotspots_label _ landmine_hotspots qlat qlon g _ c1); now rewrite E1).
    cbn; tauto. }
  destruct (scan_hotspots "Metal Debris" _ _ _ g1) as [[[l2 c2]|] g2] eqn:E2.
  { cbn. intros H. inversion H; subst.
    assert (t = "Metal Debris"%string) as ->
      by (apply (scan_hotspots_label _ debris_hotspots qlat qlon g1 _ c2); now rewrite E2).
    cbn; tauto. }
  destruct (scan_hotspots "Safe Zone" _ _ _ g2) as [[[l3 c3]|] g3] eqn:E3.
  { cbn. intros H. inversion H; subst.
    assert (t = "Safe Zone"%string) as ->
      by (apply (scan_hotspots_label _ safe_hotspots qlat qlon g2 _ c3); now rewrite E3).
    cbn; tauto. }
  unfold random_detection, bind, random, next.
  destruct (Rltb _ _); [|discriminate].
  fold labels.
  pose proof (choices_label (fun n => g3 (S n))) as Hl.
  destruct (choices labels _ _) as [t' g4]. unfold uniform, bind, random, next, ret.
  cbn. intros H. inversion H; subst. exact Hl.
Qed.

Lemma labels_truthy t : In t labels -> truthy (Some t) = true.
Proof. cbn. intros [<-|[<-|[<-|[]]]]; reflexivity. Qed.

(** C8: [check_for_detection] returns [None] when [is_near_hotspot] finds no
    classification; otherwise it returns a record with the queried position,
    the classification and confidence of [is_near_hotspot], the reading of
    the clock and the next identifier of the uuid source, which the call
    uses up. *)
Theorem check_for_detection_spec :
  forall qlat qlon e,
    match fst (is_near_hotspot qlat qlon (rng e)) with
    | (None, _) => fst (check_for_detection qlat qlon e) = None
    | (Some t, c) =>
        exists d,
          fst (check_for_detection qlat qlon e) = Some d /\
          d !! "latitude"%string = Some (PyFloat qlat) /\
          d !! "longitude"%string = Some (PyFloat qlon) /\
          d !! "classification"%string = Some (PyStr t) /\
          d !! "confidence"%string = Some (PyFloat c) /\
          d !! "timestamp"%string = Some (PyTime (clock e 0%nat)) /\
          d !! "id"%string = Some (PyStr (uuids e 0%nat)) /\
          uuids (snd (check_for_detection qlat qlon e)) = snd (next (uuids e))
    end.
Proof.
  intros qlat qlon e.
  pose proof (is_near_hotspot_label qlat qlon (rng e)) as Hl.
  unfold check_for_detection, bind, with_rng.
  destruct (is_near_hotspot qlat qlon (rng e)) as [[[t|] c] g1]; cbn [fst snd] in *.
  - rewrite (labels_truthy t (Hl t eq_refl)).
    unfold with_uuids, generate_unique_id, datetime_now, next, ret. cbn.
    eexists. split; [reflexivity|].
    repeat split; by simplify_map_eq.
  - reflexivity.
Qed.

Lemma is_near_hotspot_spec_witness :
  exists r g1, scan_run 34.0522 (-118.2437) scan_order (const_tape 0.5) r g1.
Proof.
  destruct (is_near_hotspot_spec 34.0522 (-118.2437) (const_tape 0.5))
    as (r & g1 & H & _).
  - intros n. unfold const_tape. lra.
  - exists r, g1. exact H.
Defined.

(** ** The simulator on two query points *)

Lemma distance_self a b : distance a b a b = 0.
Proof.
  unfold distance. replace ((a - a) ^ 2 + (b - b) ^ 2) with 0 by ring. apply sqrt_0.
Qed.

Lemma out_of_range qlat qlon h :
  0 <= radius h ->
  radius h * radius h <= (qlat - lat h) ^ 2 + (qlon - lon h) ^ 2 ->
  Rltb (distance qlat qlon (lat h) (lon h)) (radius h) = false.
Proof.
  intros Hr Hd. apply Rltb_false. unfold distance. apply Rle_not_lt.
  rewrite <- (sqrt_square (radius h)) at 1 by exact Hr.
  apply sqrt_le_1_alt. exact Hd.
Qed.

(** On the centre of the first landmine hotspot a draw of 0.5 is below the
    probability 0.7. *)
Example on_first_landmine :
  fst (is_near_hotspot 34.0522 (-118.2437) (const_tape 0.5)) =
  (Some "Landmine"%string, 0.7 * 100).
Proof.
  unfold is_near_hotspot, landmine_hotspots, bind. cbn [scan_hotspots lat lon radius probability].
  rewrite distance_self.
  assert (H1 : Rltb 0 0.001 = true) by (apply Rltb_true; lra).
  rewrite H1. unfold bind, random, next, const_tape.
  assert (H2 : Rltb 0.5 0.7 = true) by (apply Rltb_true; lra).
  rewrite H2. reflexivity.
Qed.

(** Far from every hotspot, with a draw of 0.5, nothing is detected. *)
Example far_from_everything :
  fst (is_near_hotspot 0 0 (const_tape 0.5)) = (None, 0).
Proof.
  unfold is_near_hotspot, landmine_hotspots, debris_hotspots, safe_hotspots, bind.
  cbn [scan_hotspots].
  repeat (rewrite out_of_range by (cbn [lat lon radius]; lra)).
  unfold ret, random_detection, bind, random, next, const_tape.
  assert (H : Rltb 0.5 0.05 = false) by (apply Rltb_false; lra).
  rewrite H. reflexivity.
Qed.

(** Far from every hotspot, a first draw of 0.01 opens the random detection;
    the draw 0.5 falls in the second of the weights 0.2, 0.5, 0.3 and gives a
    confidence of 70 + 25 * 0.5. *)
Example random_detection_far_away :
  fst (is_near_hotspot 0 0 (cons_tape 0.01 (const_tape 0.5))) =
  (Some "Metal Debris"%string, 70 + (95 - 70) * 0.5).
Proof.
  unfold is_near_hotspot, landmine_hotspots, debris_hotspots, safe_hotspots, bind.
  cbn [scan_hotspots].
  repeat (rewrite out_of_range by (cbn [lat lon radius]; lra)).
  unfold ret, random_detection, bind, random, next, cons_tape, const_tape.
  assert (H : Rltb 0.01 0.05 = true) by (apply Rltb_true; lra).
  rewrite H. unfold choices, uniform, bind, ret, random, next, accumulate.
  cbn [accumulate_from List.last length Nat.sub firstn bisect fst snd].
  assert (H1 : Rltb (0.5 * (0 + 0.2 + 0.5 + 0.3)) (0 + 0.2) = false)
    by (apply Rltb_false; lra).
  assert (H2 : Rltb (0.5 * (0 + 0.2 + 0.5 + 0.3)) (0 + 0.2 + 0.5) = true)
    by (apply Rltb_true; lra).
  rewrite H1, H2. reflexivity.
Qed.

End DetectionFacts.

(** * The detection store *)
Module DbFacts.
Import Db.

Section Session.
Variable insert_error : database -> Detection -> option exn.

Lemma commit_one d row :
  fst (commit insert_error (mkSession d [row])) = Return tt <->
  insert_error d row = None.
Proof.
  unfold commit. cbn. destruct (insert_error d row); cbn; split; intros H;
    try reflexivity; discriminate.
Qed.

Lemma save_detection_cases detection_data d :
  (exists row,
     new_Detection detection_data = Return row /\
     insert_error d row = None /\
     save_detection insert_error detection_data d = (Return true, d ++ [row])) \/
  ((forall row, new_Detection detection_data = Return row ->
                insert_error d row <> None) /\
   save_detection insert_error detection_data d = (Return false, d)).
Proof.
  unfold save_detection, save_detection_body, ebind, of_outcome, add, commit, eret,
    SessionLocal, rollback, close.
  destruct (new_Detection detection_data) as [row|e]; cbn.
  - destruct (insert_error d row) as [e|] eqn:E; cbn.
    + right. split; [|reflexivity]. intros row' H. inversion H; subst. congruence.
    + left. exists row. repeat split. exact E.
  - right. split; [|reflexivity]. intros row H. discriminate.
Qed.
End Session.

(** C4: [save_detection] never raises; it returns [True] exactly when the
    row was built and its insert committed, and then the row is the one new
    row of the table; in every other case it returns [False] and the table
    is as it was. *)
Theorem save_detection_spec :
  forall insert_error detection_data d,
    (exists b, fst (save_detection insert_error detection_data d) = Return b) /\
    (fst (save_detection insert_error detection_data d) = Return true <->
     exists row,
       new_Detection detection_data = Return row /\
       fst (commit insert_error (mkSession d [row])) = Return tt) /\
    (fst (save_detection insert_error detection_data d) = Return true ->
     exists row,
       new_Detection detection_data = Return row /\
       snd (save_detection insert_error detection_data d) = d ++ [row]) /\
    (fst (save_detection insert_error detection_data d) <> Return true ->
     fst (save_detection insert_error detection_data d) = Return false /\
     snd (save_detection insert_error detection_data d) = d).
Proof.
  intros insert_error detection_data d.
  destruct (save_detection_cases insert_error detection_data d)
    as [(row & Hn & Hi & ->) | (Hno & ->)]; cbn [fst snd].
  - split; [eexists; reflexivity|]. split; [|split].
    + split; [|reflexivity]. intros _. exists row. split; [exact Hn|].
      now apply commit_one.
    + intros _. exists row. split; [exact Hn | reflexivity].
    + intros H. now contradiction H.
  - split; [eexists; reflexivity|]. split; [|split].
    + split; [discriminate|]. intros (row & Hn & Hc).
      apply commit_one in Hc. now destruct (Hno row Hn).
    + discriminate.
    + intros _. split; reflexivity.
Qed.

(** ** [save_detection] on a database that enforces the primary key *)

Example save_into_empty :
  exists row,
    save_detection sqlite_insert_error ImageProcessor.sample_detection [] =
    (Return true, [row]).
Proof. eexists. vm_compute. reflexivity. Qed.

Example save_same_id_twice :
  let d := snd (save_detection sqlite_insert_error ImageProcessor.sample_detection []) in
  save_detection sqlite_insert_error ImageProcessor.sample_detection d = (Return false, d).
Proof. vm_compute. reflexivity. Qed.

Example save_without_id :
  save_detection sqlite_insert_error (delete "id"%string ImageProcessor.sample_detection) [] =
  (Return false, []).
Proof. vm_compute. reflexivity. Qed.

End DbFacts.

(** * The image annotator *)
Module ImageFacts.
Import ImageProcessor.
Local Open Scope Q_scope.

Section Cv2.
Context {image contour : Type}.
Variable cv : cv2 image contour.

(** Saving never raises and touches only the detection table. *)
Lemma save_all_returns detections :
  forall w, exists d,
    save_all cv detections w = (Return tt, mkWorld (self w) d (uuids w) (clock w)).
Proof.
  induction detections as [|x detections IH]; intros w; cbn [save_all].
  - exists (db w). destruct w; reflexivity.
  - unfold ebind, save_detection.
    destruct (Db.save_detection (insert_error cv) x (db w)) as [r d] eqn:E.
    assert (Hr : exists b, r = Return b).
    { unfold Db.save_detection in E.
      destruct (Db.save_detection_body _ _ _) as [[b|e] s'] in E;
        inversion E; eexists; reflexivity. }
    destruct Hr as [b ->].
    destruct (IH (mkWorld (self w) d (uuids w) (clock w))) as [d' Hd'].
    exists d'. exact Hd'.
Qed.

Lemma annotate_predefined_demo image_path img w :
  exists img',
    annotate_predefined cv image_path (predefined_landmines __init__) [] img w =
    (Return (demo_detections image_path (uuids w) (clock w), img'),
     mkWorld (self w) (db w) (fun n => uuids w (4 + n)%nat) (fun n => clock w (4 + n)%nat)).
Proof.
  unfold __init__, predefined_landmines. cbn [annotate_predefined].
  unfold ebind, fresh_id, datetime_now, generate_unique_id, next, eret.
  cbn [uuids clock self db app]. eexists. reflexivity.
Qed.

Lemma detect_landmines_demo image_path w img :
  contains "landmine_detection1.jpg" image_path = true ->
  path_exists cv image_path = true ->
  imread cv image_path = Some img ->
  predefined_landmines (self w) = predefined_landmines __init__ ->
  writable cv image_path ->
  fst (detect_landmines cv image_path w) =
  demo_detections image_path (uuids w) (clock w).
Proof.
  intros Hc He Hr Hp [Hm Hw].
  unfold detect_landmines, detect_landmines_body, ebind at 1.
  rewrite He. unfold eret at 1. unfold ebind at 1. rewrite Hr.
  unfold eret at 1. unfold ebind at 1. unfold get_self at 1.
  rewrite Hc, Hp.
  unfold ebind at 1.
  destruct (annotate_predefined_demo image_path img w) as [img' ->].
  unfold ebind at 1, of_outcome at 1. cbv zeta in Hm. rewrite Hm.
  unfold ebind at 1, of_outcome at 1.
  destruct (Hw img') as [b ->].
  unfold ebind at 1, record_result.
  unfold ebind at 1.
  match goal with |- context [save_all cv ?ds ?w0] =>
    destruct (save_all_returns ds w0) as [d ->] end.
  reflexivity.
Qed.
End Cv2.

Lemma demo_boxes image_path ids ts :
  map box (demo_detections image_path ids ts) =
  [ (Some (PyInt 146), Some (PyInt 164), Some (PyInt 35), Some (PyInt 33),
     Some (PyFloat 93.5), Some (PyStr "Landmine"));
    (Some (PyInt 396), Some (PyInt 139), Some (PyInt 37), Some (PyInt 35),
     Some (PyFloat 93.0), Some (PyStr "Landmine"));
    (Some (PyInt 143), Some (PyInt 367), Some (PyInt 40), Some (PyInt 38),
     Some (PyFloat 84.0), Some (PyStr "Landmine"));
    (Some (PyInt 391), Some (PyInt 389), Some (PyInt 42), Some (PyInt 40),
     Some (PyFloat 94.0), Some (PyStr "Landmine")) ].
Proof. reflexivity. Qed.

Lemma demo_positions image_path ids ts :
  map position (demo_detections image_path ids ts) =
  [ position_of 146 164; position_of 396 139; position_of 143 367; position_of 391 389 ].
Proof. reflexivity. Qed.


(** C5, as amended: for an image path that contains
    [landmine_detection1.jpg], when the file exists, decodes as an image and
    the processed copy can be written, [detect_landmines] returns the four
    predefined detections: the boxes, confidences and classification of the
    hardcoded list, at latitude [34.0522 + y/1000] and longitude
    [-118.2437 + x/1000]; nothing of the contour pipeline enters the
    result. *)
Theorem demo_image_detections :
  forall (image contour : Type) (cv : cv2 image contour) image_path w img,
    contains "landmine_detection1.jpg" image_path = true ->
    path_exists cv image_path = true ->
    imread cv image_path = Some img ->
    predefined_landmines (self w) = predefined_landmines __init__ ->
    writable cv image_path ->
    fst (detect_landmines cv image_path w) =
      demo_detections image_path (uuids w) (clock w) /\
    map box (fst (detect_landmines cv image_path w)) =
      [ (Some (PyInt 146), Some (PyInt 164), Some (PyInt 35), Some (PyInt 33),
         Some (PyFloat 93.5), Some (PyStr "Landmine"));
        (Some (PyInt 396), Some (PyInt 139), Some (PyInt 37), Some (PyInt 35),
         Some (PyFloat 93.0), Some (PyStr "Landmine"));
        (Some (PyInt 143), Some (PyInt 367), Some (PyInt 40), Some (PyInt 38),
         Some (PyFloat 84.0), Some (PyStr "Landmine"));
        (Some (PyInt 391), Some (PyInt 389), Some (PyInt 42), Some (PyInt 40),
         Some (PyFloat 94.0), Some (PyStr "Landmine")) ] /\
    map position (fst (detect_landmines cv image_path w)) =
      [ position_of 146 164; position_of 396 139;
        position_of 143 367; position_of 391 389 ].
Proof.
  intros image contour cv image_path w img Hc He Hr Hp Hw.
  rewrite (detect_landmines_demo cv image_path w img Hc He Hr Hp Hw).
  split; [reflexivity|]. split; [apply demo_boxes | apply demo_positions].
Qed.

Lemma demo_image_detections_witness :
  length (fst (detect_landmines (simple_cv2 (Return tt) (Return true))
                 "sample_images/landmine_detection1.jpg" demo_world)) = 4%nat.
Proof.
  destruct (demo_image_detections unit unit (simple_cv2 (Return tt) (Return true))
              "sample_images/landmine_detection1.jpg" demo_world tt) as [H _].
  - reflexivity.
  - reflexivity.
  - reflexivity.
  - reflexivity.
  - split; [reflexivity|]. intros img. exists true. reflexivity.
  - rewrite H. reflexivity.
Defined.

(** C5 fails as stated: the demo image exists and decodes, but the directory
    of the processed copy cannot be created; [os.makedirs] raises inside the
    [try] and [detect_landmines] returns the empty list. *)
Lemma demo_image_unwritable :
  let cv := simple_cv2 (Raise OSError) (Return true) in
  let image_path := "sample_images/landmine_detection1.jpg"%string in
  contains "landmine_detection1.jpg" image_path = true /\
  path_exists cv image_path = true /\
  imread cv image_path = Some tt /\
  fst (detect_landmines cv image_path demo_world) = [].
Proof. repeat split. Qed.

End ImageFacts.

(** * More on the drone simulator *)
Module DroneOpsFacts.
Import Drone DroneOps.
Local Open Scope Q_scope.

Lemma py_min_cases a b : (b < a /\ py_min a b = b) \/ (a <= b /\ py_min a b = a).
Proof.
  unfold py_min. destruct (Qltb b a) eqn:E.
  - left. split; [now apply Qltb_true | reflexivity].
  - right. split; [now apply Qltb_false | reflexivity].
Qed.

Lemma clamp_range lo hi x : lo <= hi -> lo <= py_max lo (py_min hi x) <= hi.
Proof.
  intros H.
  destruct (py_min_cases hi x) as [[H1 ->]|[H1 ->]];
    match goal with |- context [py_max lo ?y] =>
      destruct (py_max_cases lo y) as [[H2 ->]|[H2 ->]] end; lra.
Qed.

(** What [update_status] does to the speed, the signal and the position. *)
Lemma update_status_telemetry t s g :
  let s' := fst (update_status t s g) in
  max_speed s' = max_speed s /\
  initial_lat s' = initial_lat s /\ initial_lng s' = initial_lng s /\
  (exists x, signal_strength s' = py_max 60 (py_min 100 x)) /\
  (if is_flying s then exists x, speed s' = py_max 0 (py_min (max_speed s) x)
   else speed s' = 0.0) /\
  (if is_flying s && Qltb (g 0%nat) 0.3
   then latitude s' = latitude s + (-0.00001 + (0.00001 - -0.00001) * g 1%nat) /\
        longitude s' = longitude s + (-0.00001 + (0.00001 - -0.00001) * g 2%nat)
   else latitude s' = latitude s /\ longitude s' = longitude s).
Proof.
  unfold update_status, bind, ret, uniform, random, next, _consume_battery.
  destruct s as [il ig la lo al sp hd b sg lt fl ms mxa mna mv]. cbn.
  destruct fl; cbn; [destruct (Qltb (g 0%nat) 0.3); cbn|];
    repeat split; try reflexivity; eexists; reflexivity.
Qed.

Lemma telemetry_inv_step o s g : telemetry_inv s -> telemetry_inv (fst (run o (s, g))).
Proof.
  intros (Hm & Hs & Hv).
  destruct o; cbn [run fst];
    try solve [unfold takeoff, land, emergency_stop, telemetry_inv; cbn;
               repeat split; try assumption; try lra];
    try solve [unfold move_forward, move_backward, move_left, move_right,
                 return_to_home, move_up, move_down;
               match goal with |- context [if ?c then _ else _] => destruct c end;
               unfold telemetry_inv; cbn; repeat split; try assumption; try lra].
  destruct (update_status_telemetry current_time s g) as (H1 & _ & _ & [x H2] & H3 & _).
  unfold telemetry_inv. rewrite H1, H2. split; [exact Hm|]. split.
  - apply clamp_range. lra.
  - destruct (is_flying s).
    + destruct H3 as [y ->]. rewrite Hm.
      destruct (clamp_range 0 10.0 y) as [Ha Hb]; [lra|]. lra.
    + rewrite H3. lra.
Qed.

Lemma telemetry_inv_reachable lat lng alt w :
  reachable lat lng alt w -> telemetry_inv (fst w).
Proof.
  induction 1 as [now g | [s g] o Hr IH].
  - unfold telemetry_inv. cbn. repeat split; lra.
  - apply telemetry_inv_step. exact IH.
Qed.

(** X1: in every state reachable from a new simulator, whatever the
    constructor arguments, the clock readings and the random draws, the
    signal strength is between 60 and 100 and the speed between 0 and the
    maximal speed 10. *)
Theorem telemetry_in_range :
  forall lat lng alt w,
    reachable lat lng alt w ->
    60 <= signal_strength (fst w) <= 100 /\ 0 <= speed (fst w) <= 10.
Proof.
  intros lat lng alt w Hr.
  destruct (telemetry_inv_reachable lat lng alt w Hr) as (_ & H1 & H2).
  split; assumption.
Qed.

Lemma telemetry_in_range_witness :
  let w := run (UpdateStatus 3) (run ReturnToHome (run Takeoff
             (__init__ 1 2 10 0, const_tape 0.9))) in
  60 <= signal_strength (fst w) <= 100 /\ 0 <= speed (fst w) <= 10.
Proof.
  apply (telemetry_in_range 1 2 10).
  apply reach_step, reach_step, reach_step, reach_init.
Defined.

(** X2: only [takeoff] sets the flying flag and only [land] and
    [emergency_stop] clear it; no other operation changes it, whatever the
    battery level. *)
Theorem flying_flag :
  forall o s g,
    is_flying (fst (run o (s, g))) = flying_after o (is_flying s).
Proof.
  intros o s g. destruct o; cbn [run fst flying_after]; try reflexivity;
    try solve [unfold move_forward, move_backward, move_left, move_right,
                 return_to_home, move_up, move_down;
               destruct (is_flying s) eqn:E; cbn; try destruct (Qltb _ _); cbn;
               congruence].
  apply (DroneFacts.update_status_frame current_time s g).
Qed.

(** X3: in flight, a step forward and a step back, and a step left and a
    step right, bring the drone back to the coordinate it had; the two steps
    cost 0.4 of battery, as far as there is any. *)
Theorem horizontal_round_trip :
  forall s,
    is_flying s = true ->
    latitude (move_backward (move_forward s)) == latitude s /\
    longitude (move_backward (move_forward s)) = longitude s /\
    longitude (move_right (move_left s)) == longitude s /\
    latitude (move_right (move_left s)) = latitude s /\
    battery_level (move_backward (move_forward s)) == Qmax 0 (battery_level s - 0.4) /\
    battery_level (move_right (move_left s)) == Qmax 0 (battery_level s - 0.4).
Proof.
  intros s Hf.
  assert (Hb : forall b, py_max 0 (py_max 0 (b - 0.2) - 0.2) == Qmax 0 (b - 0.4)).
  { intros b. rewrite py_max_Qmax.
    destruct (py_max_cases 0 (b - 0.2)) as [[H ->]|[H ->]].
    - apply Q.max_compat; [reflexivity | lra].
    - rewrite Q.max_l by lra. rewrite Q.max_l by lra. reflexivity. }
  unfold move_backward, move_forward, move_right, move_left. rewrite Hf. cbn.
  rewrite Hf. cbn.
  repeat split; try reflexivity; try lra; apply Hb.
Qed.

Lemma horizontal_round_trip_witness :
  latitude (move_backward (move_forward away)) == latitude away.
Proof.
  destruct (horizontal_round_trip away) as [H _]; [reflexivity | exact H].
Defined.

(** X4: [move_up] climbs one metre for 0.3 of battery as long as the drone
    flies below the maximal altitude, and does nothing at or above it;
    [move_down] descends one metre for 0.1 of battery as long as the drone
    flies above the minimal altitude, and does nothing at or below it. *)
Theorem vertical_moves :
  forall s,
    (is_flying s = true -> altitude s < max_altitude s ->
     altitude (move_up s) == altitude s + 1 /\
     battery_level (move_up s) == Qmax 0 (battery_level s - 0.3) /\
     latitude (move_up s) = latitude s /\ longitude (move_up s) = longitude s) /\
    (max_altitude s <= altitude s -> move_up s = s) /\
    (is_flying s = true -> min_altitude s < altitude s ->
     altitude (move_down s) == altitude s - 1 /\
     battery_level (move_down s) == Qmax 0 (battery_level s - 0.1) /\
     latitude (move_down s) = latitude s /\ longitude (move_down s) = longitude s) /\
    (altitude s <= min_altitude s -> move_down s = s).
Proof.
  intros s. unfold move_up, move_down. repeat split.
  - rewrite H. apply Qltb_true in H0. rewrite H0. cbn. lra.
  - rewrite H. apply Qltb_true in H0. rewrite H0. cbn. apply py_max_Qmax.
  - rewrite H. apply Qltb_true in H0. rewrite H0. reflexivity.
  - rewrite H. apply Qltb_true in H0. rewrite H0. reflexivity.
  - intros H. apply Qltb_false in H. rewrite H, andb_false_r. reflexivity.
  - rewrite H. apply Qltb_true in H0. rewrite H0. cbn. lra.
  - rewrite H. apply Qltb_true in H0. rewrite H0. cbn. apply py_max_Qmax.
  - rewrite H. apply Qltb_true in H0. rewrite H0. reflexivity.
  - rewrite H. apply Qltb_true in H0. rewrite H0. reflexivity.
  - intros H. apply Qltb_false in H. rewrite H, andb_false_r. reflexivity.
Qed.

Lemma vertical_moves_witness :
  altitude (move_up away) == altitude away + 1 /\
  move_up (set_altitude 50 away) = set_altitude 50 away.
Proof.
  destruct (vertical_moves away) as (H1 & _).
  destruct (vertical_moves (set_altitude 50 away)) as (_ & H2 & _).
  split.
  - apply H1; reflexivity.
  - apply H2. vm_compute. discriminate.
Defined.

(** X5: one [update_status] adds to the latitude and to the longitude a
    drift of at most 0.00001 degrees, a value of
    [random.uniform(-0.00001, 0.00001)] or nothing, the sum being taken in
    exact arithmetic; on the ground it leaves the position as it is. *)
Theorem position_drift :
  forall t s g,
    unit_draws g ->
    exists d_lat d_lon,
      latitude (fst (update_status t s g)) == latitude s + d_lat /\
      longitude (fst (update_status t s g)) == longitude s + d_lon /\
      -0.00001 <= d_lat <= 0.00001 /\
      -0.00001 <= d_lon <= 0.00001 /\
      (is_flying s = true -> Qltb (g 0%nat) 0.3 = true ->
       d_lat == -0.00001 + (0.00001 - -0.00001) * g 1%nat /\
       d_lon == -0.00001 + (0.00001 - -0.00001) * g 2%nat) /\
      (is_flying s = false \/ Qltb (g 0%nat) 0.3 = false ->
       latitude (fst (update_status t s g)) = latitude s /\
       longitude (fst (update_status t s g)) = longitude s).
Proof.
  intros t s g Hu.
  destruct (update_status_telemetry t s g) as (_ & _ & _ & _ & _ & H).
  pose proof (Hu 1%nat) as H1. pose proof (Hu 2%nat) as H2.
  destruct (is_flying s); cbn [andb] in H.
  - destruct (Qltb (g 0%nat) 0.3).
    + destruct H as [-> ->].
      exists (-0.00001 + (0.00001 - -0.00001) * g 1%nat),
             (-0.00001 + (0.00001 - -0.00001) * g 2%nat).
      split; [reflexivity|]. split; [reflexivity|]. split; [lra|]. split; [lra|].
      split; [intros _ _; split; reflexivity|].
      intros [E|E]; discriminate E.
    + destruct H as [-> ->]. exists 0, 0.
      split; [lra|]. split; [lra|]. split; [lra|]. split; [lra|].
      split; [intros _ E; discriminate E|]. intros _. split; reflexivity.
  - destruct H as [-> ->]. exists 0, 0.
    split; [lra|]. split; [lra|]. split; [lra|]. split; [lra|].
    split; [intros E; discriminate E|]. intros _. split; reflexivity.
Qed.

Lemma position_drift_witness :
  exists d_lat,
    latitude (fst (update_status 5 away (const_tape 0.1))) == latitude away + d_lat /\
    -0.00001 <= d_lat <= 0.00001.
Proof.
  destruct (position_drift 5 away (const_tape 0.1)) as (d1 & d2 & H1 & _ & H3 & _).
  - intros n. unfold const_tape. lra.
  - exists d1. split; [exact H1 | exact H3].
Defined.

Lemma return_to_home_n_flying n :
  forall s, is_flying s = true ->
    initial_lat (return_to_home_n n s) = initial_lat s /\
    initial_lng (return_to_home_n n s) = initial_lng s /\
    latitude (return_to_home_n n s) - initial_lat s
      == shrink n * (latitude s - initial_lat s) /\
    longitude (return_to_home_n n s) - initial_lng s
      == shrink n * (longitude s - initial_lng s).
Proof.
  induction n as [|n IH]; intros s Hf; cbn [return_to_home_n shrink].
  - repeat split; lra.
  - destruct (DroneFacts.return_to_home_position s Hf) as (Hla & Hlo & Hil & Hig & Hf').
    destruct (IH (return_to_home s) Hf') as (H1 & H2 & H3 & H4).
    rewrite Hil in H1, H3. rewrite Hig in H2, H4.
    repeat split; try assumption.
    + rewrite H3, Hla. ring.
    + rewrite H4, Hlo. ring.
Qed.

(** X6: after [n] calls of [return_to_home] in flight, the offset of the
    drone from its home position is [0.8 ^ n] times the offset it had, in
    latitude and in longitude, and the home position is unchanged. *)
Theorem return_to_home_n_offset :
  forall n s,
    is_flying s = true ->
    latitude (return_to_home_n n s) - initial_lat s
      == shrink n * (latitude s - initial_lat s) /\
    longitude (return_to_home_n n s) - initial_lng s
      == shrink n * (longitude s - initial_lng s) /\
    initial_lat (return_to_home_n n s) = initial_lat s /\
    initial_lng (return_to_home_n n s) = initial_lng s.
Proof.
  intros n s Hf.
  destruct (return_to_home_n_flying n s Hf) as (H1 & H2 & H3 & H4).
  repeat split; assumption.
Qed.

Lemma return_to_home_n_offset_witness :
  latitude (return_to_home_n 3 away) - initial_lat away
    == shrink 3 * (latitude away - initial_lat away).
Proof.
  destruct (return_to_home_n_offset 3 away) as [H _]; [reflexivity | exact H].
Defined.
End DroneOpsFacts.

(** * More on the detection simulator *)
Module SensorFacts.
Import Detection Sensors DetectionFacts.
Local Open Scope R_scope.

Lemma scan_order_probability label h :
  In (label, h) scan_order -> 0.4 <= probability h <= 0.9.
Proof.
  unfold scan_order, tagged, landmine_hotspots, debris_hotspots, safe_hotspots.
  cbn [map app In].
  intros H; repeat (destruct H as [H|H]; [inversion H; subst; cbn; lra|]);
    destruct H.
Qed.

(** X7: with draws in [0, 1), [is_near_hotspot] answers either no
    classification with confidence 0, or one of the three classifications
    with a confidence between 40 and 95. *)
Theorem confidence_range :
  forall qlat qlon g,
    unit_draws g ->
    match fst (is_near_hotspot qlat qlon g) with
    | (Some t, c) => In t labels /\ 40 <= c <= 95
    | (None, c) => c = 0
    end.
Proof.
  intros qlat qlon g Hu.
  destruct (loops_run qlat qlon g) as (r & g1 & Hrun & Hres).
  destruct r as [[label conf]|].
  - rewrite Hres. cbn [fst].
    split.
    + apply (is_near_hotspot_label qlat qlon g). now rewrite Hres.
    + destruct (scan_run_hit _ _ _ _ _ _ _ Hrun) as (h & n & Hin & _ & _ & ->).
      pose proof (scan_order_probability label h Hin). lra.
  - rewrite Hres.
    destruct (random_detection_cases g1 (scan_run_tape _ _ _ _ _ _ Hrun Hu))
      as [(_ & t & c & -> & Ht & Hc) | (_ & ->)].
    + split; [exact Ht | lra].
    + reflexivity.
Qed.

Lemma confidence_range_witness :
  match fst (is_near_hotspot 34.0522 (-118.2437) (const_tape 0.5)) with
  | (Some t, c) => In t labels /\ 40 <= c <= 95
  | (None, c) => c = 0
  end.
Proof.
  apply confidence_range. intros n. unfold const_tape. lra.
Defined.

(** X8: a detection of [check_for_detection] has exactly the six keys id,
    timestamp, latitude, longitude, classification and confidence; when
    nothing is detected, no identifier and no clock reading is used up. *)
Theorem check_for_detection_keys :
  forall qlat qlon e,
    match fst (check_for_detection qlat qlon e) with
    | Some d =>
        dom d = list_to_set (C := gset string)
                  ["id"; "timestamp"; "latitude"; "longitude";
                   "classification"; "confidence"]%string
    | None =>
        uuids (snd (check_for_detection qlat qlon e)) = uuids e /\
        clock (snd (check_for_detection qlat qlon e)) = clock e
    end.
Proof.
  intros qlat qlon e.
  unfold check_for_detection, bind, with_rng.
  destruct (is_near_hotspot qlat qlon (rng e)) as [[t c] g1].
  destruct (truthy t).
  - unfold with_uuids, generate_unique_id, datetime_now, next, ret. cbn.
    rewrite !dom_insert_L, dom_empty_L. set_solver.
  - cbn. split; reflexivity.
Qed.

(** ** The sensor readings *)

Lemma Rpy_max_cases a b : (a < b /\ Rpy_max a b = b) \/ (~ a < b /\ Rpy_max a b = a).
Proof.
  unfold Rpy_max. destruct (Rltb a b) eqn:E.
  - left. split; [now apply Rltb_true | reflexivity].
  - right. split; [now apply Rltb_false | reflexivity].
Qed.

Lemma Rpy_min_cases a b : (b < a /\ Rpy_min a b = b) \/ (~ b < a /\ Rpy_min a b = a).
Proof.
  unfold Rpy_min. destruct (Rltb b a) eqn:E.
  - left. split; [now apply Rltb_true | reflexivity].
  - right. split; [now apply Rltb_false | reflexivity].
Qed.

Lemma clamp_0_100 x : 0 <= Rpy_max 0 (Rpy_min 100 x) <= 100.
Proof.
  destruct (Rpy_min_cases 100 x) as [[H1 ->]|[H1 ->]];
    match goal with |- context [Rpy_max 0 ?y] =>
      destruct (Rpy_max_cases 0 y) as [[H2 ->]|[H2 ->]] end; lra.
Qed.

Lemma clamp_0_100_id x : 0 <= x <= 100 -> Rpy_max 0 (Rpy_min 100 x) = x.
Proof.
  intros H.
  destruct (Rpy_min_cases 100 x) as [[H1 ->]|[H1 ->]];
    match goal with |- context [Rpy_max 0 ?y] =>
      destruct (Rpy_max_cases 0 y) as [[H2 ->]|[H2 ->]] end; lra.
Qed.

Lemma clamp_0_100_lower x lo : 0 <= lo <= 100 -> lo <= x -> lo <= Rpy_max 0 (Rpy_min 100 x).
Proof.
  intros H Hx.
  destruct (Rpy_min_cases 100 x) as [[H1 ->]|[H1 ->]];
    match goal with |- context [Rpy_max 0 ?y] =>
      destruct (Rpy_max_cases 0 y) as [[H2 ->]|[H2 ->]] end; lra.
Qed.

(** A loop never lowers the reading. *)
Lemma strongest_ge factor scale hs qlat qlon :
  forall reading, reading <= strongest factor scale hs qlat qlon reading.
Proof.
  induction hs as [|h hs IH]; intros reading; cbn [strongest].
  - lra.
  - destruct (Rltb _ _).
    + eapply Rle_trans; [|apply IH].
      destruct (Rpy_max_cases reading
                  ((1 - distance qlat qlon (lat h) (lon h) / (radius h * factor)) * scale))
        as [[H ->]|[H ->]]; lra.
    + apply IH.
Qed.

(** A loop raises the reading to the strength of every hotspot in range. *)
Lemma strongest_member factor scale hs qlat qlon h :
  In h hs ->
  distance qlat qlon (lat h) (lon h) < radius h * factor ->
  forall reading,
    (1 - distance qlat qlon (lat h) (lon h) / (radius h * factor)) * scale
    <= strongest factor scale hs qlat qlon reading.
Proof.
  induction hs as [|h' hs IH]; intros Hin Hd reading; [destruct Hin|].
  cbn [strongest]. destruct Hin as [->|Hin].
  - apply Rltb_true in Hd. rewrite Hd.
    eapply Rle_trans; [|apply strongest_ge].
    match goal with |- context [Rpy_max reading ?y] =>
      destruct (Rpy_max_cases reading y) as [[H ->]|[H ->]] end; lra.
  - destruct (Rltb _ _); apply IH; assumption.
Qed.

(** Out of range of every hotspot, a loop leaves the reading as it is. *)
Lemma strongest_clear factor scale hs qlat qlon reading :
  clear_of factor hs qlat qlon ->
  strongest factor scale hs qlat qlon reading = reading.
Proof.
  induction 1 as [|h hs Hh _ IH]; cbn [strongest]; [reflexivity|].
  apply Rltb_false in Hh. rewrite Hh. exact IH.
Qed.

Lemma metal_signal_ge_ambient qlat qlon : 10 <= metal_signal qlat qlon.
Proof.
  unfold metal_signal.
  eapply Rle_trans; [|apply strongest_ge]. apply strongest_ge.
Qed.

(** X9: the metal detector reading is always between 0 and 100; with a
    draw in [0, 1) it is at least 5, the ambient level 10 less the largest
    noise. *)
Theorem metal_reading_range :
  forall qlat qlon g,
    0 <= fst (get_metal_detector_reading qlat qlon g) <= 100 /\
    (unit_draws g -> 5 <= fst (get_metal_detector_reading qlat qlon g)).
Proof.
  intros qlat qlon g.
  unfold get_metal_detector_reading, uniform, bind, ret, random, next. cbn [fst].
  split; [apply clamp_0_100|].
  intros Hu. pose proof (Hu 0%nat). pose proof (metal_signal_ge_ambient qlat qlon).
  apply clamp_0_100_lower; lra.
Qed.

(** X10: out of the widened range (1.5 times the radius) of every landmine
    and debris hotspot, the metal detector reads the ambient level 10 plus
    the noise, a value in [5, 15). *)
Theorem metal_reading_ambient :
  forall qlat qlon g,
    clear_of 1.5 landmine_hotspots qlat qlon ->
    clear_of 1.5 debris_hotspots qlat qlon ->
    unit_draws g ->
    fst (get_metal_detector_reading qlat qlon g) = 10 + (-5 + (5 - -5) * g 0%nat) /\
    5 <= fst (get_metal_detector_reading qlat qlon g) < 15.
Proof.
  intros qlat qlon g Hl Hd Hu. pose proof (Hu 0%nat).
  unfold get_metal_detector_reading, uniform, bind, ret, random, next, metal_signal.
  cbn [fst]. rewrite (strongest_clear _ _ _ _ _ _ Hl), (strongest_clear _ _ _ _ _ _ Hd).
  rewrite clamp_0_100_id by lra. split; [reflexivity | lra].
Qed.

Lemma far_clear factor hs :
  0 < factor ->
  Forall (fun h => 0 <= radius h /\
                   (radius h * factor) * (radius h * factor)
                   <= (0 - lat h) ^ 2 + (0 - lon h) ^ 2) hs ->
  clear_of factor hs 0 0.
Proof.
  intros Hf H. unfold clear_of. induction H as [|h hs [Hr Hh] _ IH]; constructor; [|exact IH].
  unfold distance. apply Rle_not_lt.
  rewrite <- (sqrt_square (radius h * factor)) by nra.
  apply sqrt_le_1_alt. exact Hh.
Qed.

Lemma metal_reading_ambient_witness :
  5 <= fst (get_metal_detector_reading 0 0 (const_tape 0.5)) < 15.
Proof.
  destruct (metal_reading_ambient 0 0 (const_tape 0.5)) as [_ H].
  - apply far_clear; [lra|].
    unfold landmine_hotspots. repeat constructor; cbn [lat lon radius]; lra.
  - apply far_clear; [lra|].
    unfold debris_hotspots. repeat constructor; cbn [lat lon radius]; lra.
  - intros n. unfold const_tape. lra.
  - exact H.
Defined.

Lemma landmine_radius h : In h landmine_hotspots -> 0 < radius h.
Proof.
  unfold landmine_hotspots. cbn [In].
  intros H; repeat (destruct H as [H|H]; [subst; cbn; lra|]); destruct H.
Qed.

(** X11: on the centre of a landmine hotspot the metal detector reads at
    least 95, whatever the noise. *)
Theorem metal_reading_on_landmine :
  forall h g,
    In h landmine_hotspots ->
    unit_draws g ->
    95 <= fst (get_metal_detector_reading (lat h) (lon h) g).
Proof.
  intros h g Hin Hu. pose proof (Hu 0%nat). pose proof (landmine_radius h Hin) as Hr.
  unfold get_metal_detector_reading, uniform, bind, ret, random, next, metal_signal.
  cbn [fst].
  assert (Hs : 100 <= strongest 1.5 75 debris_hotspots (lat h) (lon h)
                        (strongest 1.5 100 landmine_hotspots (lat h) (lon h) 10)).
  { eapply Rle_trans; [|apply strongest_ge].
    pose proof (strongest_member 1.5 100 landmine_hotspots (lat h) (lon h) h Hin) as Hm.
    rewrite distance_self in Hm.
    assert (Hz : (1 - 0 / (radius h * 1.5)) * 100 = 100) by (unfold Rdiv; lra).
    rewrite Hz in Hm. apply Hm. nra. }
  apply clamp_0_100_lower; lra.
Qed.

Lemma metal_reading_on_landmine_witness :
  95 <= fst (get_metal_detector_reading 34.0522 (-118.2437) (const_tape 0.5)).
Proof.
  apply (metal_reading_on_landmine (mkHotspot 34.0522 (-118.2437) 0.001 0.7)).
  - left. reflexivity.
  - intros n. unfold const_tape. lra.
Defined.

Lemma time_factor_range hour : 1 <= time_factor hour <= 1.2.
Proof.
  unfold time_factor. destruct (_ && _)%bool; [lra|]. destruct (_ || _)%bool; lra.
Qed.

(** X12: the thermal reading is always between 0 and 100; with a draw in
    [0, 1) it is at least 2 at every hour, and out of the widened range
    (1.2 times the radius) of every landmine hotspot it is at most 9. *)
Theorem thermal_reading_range :
  forall qlat qlon hour g,
    0 <= fst (get_thermal_reading qlat qlon hour g) <= 100 /\
    (unit_draws g -> 2 <= fst (get_thermal_reading qlat qlon hour g)) /\
    (unit_draws g -> clear_of 1.2 landmine_hotspots qlat qlon ->
     fst (get_thermal_reading qlat qlon hour g) <= 9).
Proof.
  intros qlat qlon hour g.
  unfold get_thermal_reading, uniform, bind, ret, random, next. cbn [fst].
  pose proof (time_factor_range hour) as Ht.
  split; [apply clamp_0_100|]. split.
  - intros Hu. pose proof (Hu 0%nat).
    pose proof (strongest_ge 1.2 85 landmine_hotspots qlat qlon 5).
    apply clamp_0_100_lower; [lra|]. nra.
  - intros Hu Hc. pose proof (Hu 0%nat).
    rewrite (strongest_clear _ _ _ _ _ _ Hc).
    rewrite clamp_0_100_id by nra. nra.
Qed.
End SensorFacts.

(** * More on the detection store *)
Module DbQueriesFacts.
Import Db DbQueries.

Lemma subscript_return (d : dict Q) key v :
  subscript d key = Return v <-> d !! key = Some v.
Proof.
  unfold subscript. destruct (d !! key); split; intros H; inversion H; reflexivity.
Qed.

Lemma new_Detection_cases (detection_data : dict Q) :
  (Forall (fun k => is_Some (detection_data !! k)) required_keys /\
   new_Detection detection_data =
   Return (mkDetection (get detection_data "id") (get detection_data "timestamp")
             (get detection_data "latitude") (get detection_data "longitude")
             (get detection_data "classification") (get detection_data "confidence")
             (get detection_data "image_path") (get detection_data "x")
             (get detection_data "y") (get detection_data "width")
             (get detection_data "height"))) \/
  (exists k, In k required_keys /\ detection_data !! k = None /\
             new_Detection detection_data = Raise (KeyError k)).
Proof.
  unfold new_Detection, subscript, get, required_keys.
  destruct (detection_data !! "id"%string) eqn:E1;
    [|right; exists "id"%string; cbn; tauto].
  destruct (detection_data !! "timestamp"%string) eqn:E2;
    [|right; exists "timestamp"%string; cbn; tauto].
  destruct (detection_data !! "latitude"%string) eqn:E3;
    [|right; exists "latitude"%string; cbn; tauto].
  destruct (detection_data !! "longitude"%string) eqn:E4;
    [|right; exists "longitude"%string; cbn; tauto].
  destruct (detection_data !! "classification"%string) eqn:E5;
    [|right; exists "classification"%string; cbn; tauto].
  destruct (detection_data !! "confidence"%string) eqn:E6;
    [|right; exists "confidence"%string; cbn; tauto].
  left. split; [|reflexivity].
  repeat constructor; eexists; eassumption.
Qed.

(** X13: the row of a detection is built exactly when the dict has the six
    keys id, timestamp, latitude, longitude, classification and confidence;
    otherwise the call raises [KeyError] for a missing one of them. The keys
    image_path, x, y, width and height may be absent and then count as
    [None]. *)
Theorem new_Detection_keys :
  forall detection_data : dict Q,
    ((exists row, new_Detection detection_data = Return row) <->
     Forall (fun k => is_Some (detection_data !! k)) required_keys) /\
    (forall row, new_Detection detection_data = Return row ->
       image_path row = get detection_data "image_path" /\
       x row = get detection_data "x" /\ y row = get detection_data "y" /\
       width row = get detection_data "width" /\
       height row = get detection_data "height") /\
    ((forall row, new_Detection detection_data <> Return row) ->
     exists k, In k required_keys /\ detection_data !! k = None /\
               new_Detection detection_data = Raise (KeyError k)).
Proof.
  intros d. destruct (new_Detection_cases d) as [[Hk Hn] | (k & Hin & Hm & Hr)].
  - split; [|split].
    + split; [intros _; exact Hk | intros _; eexists; exact Hn].
    + intros row H. rewrite Hn in H. inversion H; subst. cbn. repeat split.
    + intros H. exfalso. eapply H. exact Hn.
  - split; [|split].
    + split.
      * intros [row H]. rewrite Hr in H. discriminate.
      * intros HF. rewrite Forall_forall in HF. apply list_elem_of_In in Hin.
        destruct (HF k Hin) as [v Hv]. congruence.
    + intros row H. rewrite Hr in H. discriminate.
    + intros _. exists k. repeat split; assumption.
Qed.

(** X14: a detection without one of the six required keys is never stored:
    whatever the database would answer, [save_detection] returns [False]
    and leaves the table as it is. *)
Theorem save_detection_missing_key :
  forall insert_error (detection_data : dict Q) d k,
    In k required_keys ->
    detection_data !! k = None ->
    save_detection insert_error detection_data d = (Return false, d).
Proof.
  intros insert_error data d k Hin Hk.
  destruct (new_Detection_cases data) as [[HF _] | (k' & _ & _ & Hr)].
  - rewrite Forall_forall in HF. apply list_elem_of_In in Hin.
    destruct (HF k Hin) as [v Hv]. congruence.
  - unfold save_detection, save_detection_body, ebind, of_outcome.
    rewrite Hr. reflexivity.
Qed.

Lemma save_detection_missing_key_witness :
  save_detection sqlite_insert_error
    (delete "confidence"%string ImageProcessor.sample_detection) [] = (Return false, []).
Proof.
  apply (save_detection_missing_key _ _ _ "confidence"%string).
  - cbn. tauto.
  - reflexivity.
Defined.

Lemma to_dict_lookup r :
  to_dict r !! "id"%string = Some (id r) /\
  to_dict r !! "timestamp"%string = Some (timestamp r) /\
  to_dict r !! "latitude"%string = Some (latitude r) /\
  to_dict r !! "longitude"%string = Some (longitude r) /\
  to_dict r !! "classification"%string = Some (classification r) /\
  to_dict r !! "confidence"%string = Some (confidence r) /\
  to_dict r !! "image_path"%string = Some (image_path r) /\
  to_dict r !! "x"%string = Some (x r) /\
  to_dict r !! "y"%string = Some (y r) /\
  to_dict r !! "width"%string = Some (width r) /\
  to_dict r !! "height"%string = Some (height r).
Proof. unfold to_dict. repeat split; by simplify_map_eq. Qed.

(** X15: after a [save_detection] that returned [True] for a detection
    whose timestamp is not [None], [get_all_detections] gives the dicts it
    gave before followed by one new dict, which has the eleven columns as
    keys and holds under each the value that [detection_data.get] gives for
    it. *)
Theorem save_then_get_all :
  forall insert_error (detection_data : dict Q) d,
    fst (save_detection insert_error detection_data d) = Return true ->
    detection_data !! "timestamp"%string <> Some PyNone ->
    exists new,
      get_all_detections (snd (save_detection insert_error detection_data d)) =
        get_all_detections d ++ [new] /\
      dom new = list_to_set (C := gset string) (required_keys ++ optional_keys) /\
      forall k, In k (required_keys ++ optional_keys) ->
                new !! k = Some (get detection_data k).
Proof.
  intros insert_error data d Ht _.
  destruct (DbFacts.save_detection_cases insert_error data d)
    as [(row & Hn & _ & Hs) | (_ & Hs)]; rewrite Hs in *; [|discriminate].
  destruct (new_Detection_cases data) as [[_ Hr] | (k & _ & _ & Hr)];
    [|congruence].
  rewrite Hr in Hn. inversion Hn; subst. clear Hn.
  eexists. split; [|split].
  - cbn [snd]. unfold get_all_detections. rewrite map_app. reflexivity.
  - unfold to_dict, required_keys, optional_keys.
    rewrite !dom_insert_L, dom_empty_L. set_solver.
  - intros k Hk.
    match goal with |- to_dict ?r !! _ = _ => pose proof (to_dict_lookup r) as HL end.
    cbn in HL. destruct HL as (H1 & H2 & H3 & H4 & H5 & H6 & H7 & H8 & H9 & H10 & H11).
    cbn in Hk.
    repeat (destruct Hk as [<-|Hk]; [assumption|]). destruct Hk.
Qed.

Lemma save_then_get_all_witness :
  exists new,
    get_all_detections
      (snd (save_detection sqlite_insert_error ImageProcessor.sample_detection [])) =
    get_all_detections [] ++ [new].
Proof.
  destruct (save_then_get_all sqlite_insert_error ImageProcessor.sample_detection [])
    as (new & H & _).
  - vm_compute. reflexivity.
  - vm_compute. discriminate.
  - exists new. exact H.
Defined.

(** ** Statistics *)

Lemma stats_lookup d c :
  get_detection_stats d !! c =
  if bool_decide (In c ["Landmine"; "Metal Debris"; "Safe Zone"]%string)
  then Some (count_classification c d) else None.
Proof.
  unfold get_detection_stats. cbn [fold_left].
  destruct (decide (c = "Safe Zone"%string)) as [->|H3]; [by simplify_map_eq|].
  destruct (decide (c = "Metal Debris"%string)) as [->|H2]; [by simplify_map_eq|].
  destruct (decide (c = "Landmine"%string)) as [->|H1]; [by simplify_map_eq|].
  rewrite !lookup_insert_ne, lookup_empty by congruence.
  rewrite bool_decide_eq_false_2; [reflexivity|].
  cbn. intros [?|[?|[?|[]]]]; congruence.
Qed.

Lemma count_classification_app c d1 d2 :
  count_classification c (d1 ++ d2) =
  (count_classification c d1 + count_classification c d2)%nat.
Proof.
  unfold count_classification. rewrite filter_app, length_app. reflexivity.
Qed.

Lemma count_classification_cons c r d :
  count_classification c (r :: d) =
  ((if classification_is c r then 1 else 0) + count_classification c d)%nat.
Proof.
  unfold count_classification. rewrite filter_cons.
  destruct (classification_is c r); case_decide; try discriminate; try congruence;
    reflexivity.
Qed.

Lemma one_classification r :
  ((if classification_is "Landmine" r then 1 else 0) +
   (if classification_is "Metal Debris" r then 1 else 0) +
   (if classification_is "Safe Zone" r then 1 else 0) <= 1)%nat.
Proof.
  unfold classification_is. destruct (classification r) as [|s| | |]; cbn; try lia.
  destruct (String.eqb_spec s "Landmine") as [->|_]; [cbn; lia|].
  destruct (String.eqb_spec s "Metal Debris") as [->|_]; [cbn; lia|].
  destruct (String.eqb s "Safe Zone"); lia.
Qed.

Lemma counts_le_rows (d : list Detection) :
  (length (filter (fun r => classification_is "Landmine" r = true) d) +
   length (filter (fun r => classification_is "Metal Debris" r = true) d) +
   length (filter (fun r => classification_is "Safe Zone" r = true) d)
   <= length d)%nat.
Proof.
  change (count_classification "Landmine" d + count_classification "Metal Debris" d +
          count_classification "Safe Zone" d <= length d)%nat.
  induction d as [|r d IH]; [cbn; lia|].
  rewrite !count_classification_cons. pose proof (one_classification r).
  cbn [length]. lia.
Qed.

(** X16: [get_detection_stats] reports exactly the three classifications
    Landmine, Metal Debris and Safe Zone, each with the number of dicts that
    [get_detections_by_classification] returns for it; rows of any other
    classification are not counted anywhere. *)
Theorem stats_are_counts :
  forall d c,
    (In c ["Landmine"; "Metal Debris"; "Safe Zone"]%string ->
     get_detection_stats d !! c =
     Some (length (get_detections_by_classification c d))) /\
    (~ In c ["Landmine"; "Metal Debris"; "Safe Zone"]%string ->
     get_detection_stats d !! c = None) /\
    (length (get_detections_by_classification "Landmine" d) +
     length (get_detections_by_classification "Metal Debris" d) +
     length (get_detections_by_classification "Safe Zone" d) <= length d)%nat.
Proof.
  intros d c. split; [|split].
  - intros H. rewrite stats_lookup, bool_decide_eq_true_2 by exact H.
    unfold get_detections_by_classification, count_classification.
    now rewrite length_map.
  - intros H. rewrite stats_lookup, bool_decide_eq_false_2 by exact H. reflexivity.
  - unfold get_detections_by_classification. rewrite !length_map.
    apply counts_le_rows.
Qed.

(** X17: a [save_detection] that returned [True] for a detection classified
    [c] raises the count of [c] in [get_detection_stats] by one and leaves
    the other two counts as they were. *)
Theorem stats_after_save :
  forall insert_error (detection_data : dict Q) d c c',
    fst (save_detection insert_error detection_data d) = Return true ->
    detection_data !! "classification"%string = Some (PyStr c) ->
    In c' ["Landmine"; "Metal Debris"; "Safe Zone"]%string ->
    get_detection_stats (snd (save_detection insert_error detection_data d)) !! c' =
    Some (count_classification c' d + (if String.eqb c c' then 1 else 0))%nat.
Proof.
  intros insert_error data d c c' Ht Hc Hin.
  destruct (DbFacts.save_detection_cases insert_error data d)
    as [(row & Hn & _ & Hs) | (_ & Hs)]; rewrite Hs in *; [|discriminate].
  destruct (new_Detection_cases data) as [[_ Hr] | (k & _ & _ & Hr)];
    [|congruence].
  rewrite Hr in Hn. inversion Hn; subst. clear Hn. cbn [snd].
  rewrite stats_lookup, bool_decide_eq_true_2 by exact Hin.
  rewrite count_classification_app. f_equal. f_equal.
  unfold count_classification. rewrite filter_cons, filter_nil.
  unfold classification_is. cbn [classification]. unfold get. rewrite Hc.
  destruct (String.eqb c c'); case_decide; try discriminate; try reflexivity.
  congruence.
Qed.

Lemma stats_after_save_witness :
  get_detection_stats
    (snd (save_detection sqlite_insert_error ImageProcessor.sample_detection []))
    !! "Landmine"%string = Some 1%nat.
Proof.
  rewrite (stats_after_save sqlite_insert_error ImageProcessor.sample_detection []
             "Landmine" "Landmine").
  - reflexivity.
  - vm_compute. reflexivity.
  - reflexivity.
  - cbn. tauto.
Defined.

(** ** Events *)

Lemma new_Event_cases (event_data : dict Q) :
  (Forall (fun k => is_Some (event_data !! k)) event_keys /\
   new_Event event_data =
   Return (mkEvent (get event_data "id") (get event_data "time")
             (get event_data "type") (get event_data "message")
             (get event_data "severity"))) \/
  (exists k, In k event_keys /\ event_data !! k = None /\
             new_Event event_data = Raise (KeyError k)).
Proof.
  unfold new_Event, subscript, get, event_keys.
  destruct (event_data !! "id"%string) eqn:E1;
    [|right; exists "id"%string; cbn; tauto].
  destruct (event_data !! "time"%string) eqn:E2;
    [|right; exists "time"%string; cbn; tauto].
  destruct (event_data !! "type"%string) eqn:E3;
    [|right; exists "type"%string; cbn; tauto].
  destruct (event_data !! "message"%string) eqn:E4;
    [|right; exists "message"%string; cbn; tauto].
  destruct (event_data !! "severity"%string) eqn:E5;
    [|right; exists "severity"%string; cbn; tauto].
  left. split; [|reflexivity].
  repeat constructor; eexists; eassumption.
Qed.

(** X18: [save_event] never raises. An event without one of the keys id,
    time, type, message and severity is not stored and the answer is
    [False]; an event with the five keys is stored, with the answer [True],
    exactly when the database takes its row, and then [get_all_events] gives
    one more dict, which holds the five values of the event, the time of the
    insert standing in for a time that is [None]; otherwise the table is as
    before. *)
Theorem save_event_spec :
  forall insert_error insert_time (event_data : dict Q) d,
    (exists b, fst (save_event insert_error insert_time event_data d) = Return b) /\
    ((exists k, In k event_keys /\ event_data !! k = None) ->
     save_event insert_error insert_time event_data d = (Return false, d)) /\
    (Forall (fun k => is_Some (event_data !! k)) event_keys ->
     exists stored,
       (forall k, In k event_keys -> k <> "time"%string ->
                  event_to_dict stored !! k = event_data !! k) /\
       (event_data !! "time"%string = Some PyNone ->
        event_to_dict stored !! "time"%string = Some (PyTime insert_time)) /\
       (event_data !! "time"%string <> Some PyNone ->
        event_to_dict stored !! "time"%string = event_data !! "time"%string) /\
       match insert_error d stored with
       | None =>
           save_event insert_error insert_time event_data d =
             (Return true, d ++ [stored]) /\
           get_all_events (d ++ [stored]) = get_all_events d ++ [event_to_dict stored]
       | Some _ => save_event insert_error insert_time event_data d = (Return false, d)
       end).
Proof.
  intros insert_error insert_time data d.
  unfold save_event, save_event_body, ebind, of_outcome, add_event, commit_events,
    eret, EventSessionLocal, rollback_events, close_events.
  destruct (new_Event_cases data) as [[HF Hn] | (k & Hin & Hk & Hr)].
  - rewrite Hn. cbn.
    match goal with |- context [stored_event insert_time ?r] =>
      set (stored := stored_event insert_time r) end.
    split; [|split].
    + destruct (insert_error d stored); cbn; eexists; reflexivity.
    + intros (k & Hin & Hk). rewrite Forall_forall in HF.
      assert (Hin' : k ∈ event_keys) by (apply list_elem_of_In; exact Hin).
      destruct (HF k Hin') as [v Hv]. congruence.
    + intros _. exists stored. split; [|split; [|split]].
      * intros k Hk Hne. rewrite Forall_forall in HF.
        assert (Hk' : k ∈ event_keys) by (apply list_elem_of_In; exact Hk).
        destruct (HF k Hk') as [v Hv].
        unfold stored, stored_event, event_to_dict, get. cbn [time].
        cbn in Hk.
        destruct (data !! "time"%string) as [[| | | |]|] eqn:Et; cbn;
          repeat (destruct Hk as [<-|Hk];
                  [first [congruence | rewrite Hv; by simplify_map_eq]|]);
          destruct Hk.
      * rewrite Forall_forall in HF.
        assert (Hk' : "time"%string ∈ event_keys)
          by (apply list_elem_of_In; cbn; tauto).
        destruct (HF _ Hk') as [v Hv].
        intros Ht. rewrite Hv in Ht. inversion Ht; subst.
        unfold stored, stored_event, event_to_dict, get. cbn [time]. rewrite Hv.
        by simplify_map_eq.
      * rewrite Forall_forall in HF.
        assert (Hk' : "time"%string ∈ event_keys)
          by (apply list_elem_of_In; cbn; tauto).
        destruct (HF _ Hk') as [v Hv].
        intros Ht. rewrite Hv in Ht.
        unfold stored, stored_event, event_to_dict, get. cbn [time]. rewrite Hv.
        destruct v; try congruence; by simplify_map_eq.
      * destruct (insert_error d stored); cbn; [reflexivity|].
        split; [reflexivity|]. unfold get_all_events. now rewrite map_app.
  - rewrite Hr. cbn. split; [eexists; reflexivity|]. split.
    + intros _. reflexivity.
    + intros HF. rewrite Forall_forall in HF.
      assert (Hin' : k ∈ event_keys) by (apply list_elem_of_In; exact Hin).
      destruct (HF k Hin') as [v Hv]. congruence.
Qed.

(** An event without a time is stored with the time of the insert. *)
Example event_without_time :
  let event_data : dict Q :=
    <[ "id"%string := PyStr "e1" ]>
    (<[ "time"%string := PyNone ]>
    (<[ "type"%string := PyStr "DETECTION" ]>
    (<[ "message"%string := PyStr "Landmine detected" ]>
    (<[ "severity"%string := PyStr "danger" ]> ∅)))) in
  get_all_events (snd (save_event (fun _ _ => None) 42 event_data [])) =
  [ <[ "time"%string := PyTime 42 ]> event_data ].
Proof. vm_compute. reflexivity. Qed.

End DbQueriesFacts.

(** * More on the image annotator *)
Module ImageQueriesFacts.
Import ImageProcessor ImageQueries.
Local Open Scope Q_scope.

Lemma produced_row image_path d :
  produced image_path d -> Db.new_Detection d = Return (row_of d).
Proof. intros (i & ts & x & y & w & h & c & cl & ->). reflexivity. Qed.

Lemma produced_geo image_path d :
  produced image_path d ->
  Db.subscript d "latitude" = Return (fst (geo d)) /\
  Db.subscript d "longitude" = Return (snd (geo d)).
Proof. intros (i & ts & x & y & w & h & c & cl & ->). split; reflexivity. Qed.

Lemma coordinates_produced image_path ds :
  Forall (produced image_path) ds -> coordinates ds = Return (map geo ds).
Proof.
  induction 1 as [|d ds Hd _ IH]; cbn [coordinates map]; [reflexivity|].
  destruct (produced_geo image_path d Hd) as [-> ->]. rewrite IH.
  destruct (geo d). reflexivity.
Qed.

Lemma py_min_le a b : py_min a b <= a.
Proof.
  unfold py_min. destruct (Qltb b a) eqn:E; [|apply Qle_refl].
  apply Qltb_true in E. apply Qlt_le_weak. exact E.
Qed.

Section Cv2.
Context {image contour : Type}.
Variable cv : cv2 image contour.

Lemma annotate_predefined_shape image_path items :
  forall ds img w, exists extra img' u c,
    annotate_predefined cv image_path items ds img w =
      (Return (ds ++ extra, img'), mkWorld (self w) (db w) u c) /\
    Forall (produced image_path) extra.
Proof.
  induction items as [|[[[[[x y] wd] h] conf] cl] items IH]; intros ds img w;
    cbn [annotate_predefined].
  - exists [], img, (uuids w), (clock w). rewrite app_nil_r. destruct w.
    split; [reflexivity | constructor].
  - unfold ebind at 1, fresh_id at 1, generate_unique_id, next.
    unfold ebind at 1, datetime_now at 1, next. cbn [self db uuids clock].
    match goal with |- context [annotate_predefined cv image_path items ?ds' ?img' ?w'] =>
      destruct (IH ds' img' w') as (extra & img2 & u & c & -> & HF) end.
    cbn [self db]. eexists (_ :: extra), img2, u, c.
    rewrite <- app_assoc. split; [reflexivity|].
    constructor; [|exact HF]. repeat eexists.
Qed.

Lemma annotate_contours_shape d image_path contours :
  forall ds img w, exists extra img' u c,
    annotate_contours cv d image_path contours ds img w =
      (Return (ds ++ extra, img'), mkWorld (self w) (db w) u c) /\
    Forall (produced image_path) extra /\
    Forall capped_debris extra /\
    (length extra <= length contours)%nat.
Proof.
  induction contours as [|ct contours IH]; intros ds img w;
    cbn [annotate_contours].
  - exists [], img, (uuids w), (clock w). rewrite app_nil_r. destruct w.
    repeat split; try constructor. 
  - destruct (Qltb _ _ || Qltb _ _)%bool.
    { destruct (IH ds img w) as (extra & img2 & u & c & -> & H1 & H2 & H3).
      exists extra, img2, u, c. repeat split; auto; cbn [length]; lia. }
    match goal with |- context [Qltb ?x (circularity_threshold d)] =>
      destruct (Qltb x (circularity_threshold d)) end.
    { destruct (IH ds img w) as (extra & img2 & u & c & -> & H1 & H2 & H3).
      exists extra, img2, u, c. repeat split; auto; cbn [length]; lia. }
    destruct (boundingRect cv ct) as [[[x y] wd] h].
    unfold ebind at 1, fresh_id at 1, generate_unique_id, next.
    unfold ebind at 1, datetime_now at 1, next. cbn [self db uuids clock].
    match goal with |- context [py_min 0.95 ?v] => set (conf := py_min 0.95 v) end.
    assert (Hconf : conf <= 0.95).
    { apply py_min_le. }
    assert (Hcl : Qltb 80 conf = false) by (apply Qltb_false; lra).
    rewrite Hcl.
    match goal with |- context [annotate_contours cv d image_path contours ?ds' ?img' ?w'] =>
      destruct (IH ds' img' w') as (extra & img2 & u & c & -> & H1 & H2 & H3) end.
    cbn [self db]. eexists (_ :: extra), img2, u, c.
    rewrite <- app_assoc. split; [reflexivity|]. repeat split.
    + constructor; [|exact H1]. repeat eexists.
    + constructor; [|exact H2]. split; [reflexivity|].
      exists conf. split; [reflexivity | exact Hconf].
    + cbn [length]. lia.
Qed.

(** Saving appends the rows the database takes. *)
Lemma save_all_appends detections :
  forall w, exists rows,
    save_all cv detections w =
      (Return tt, mkWorld (self w) (db w ++ rows) (uuids w) (clock w)) /\
    (length rows <= length detections)%nat /\
    (permissive cv -> forall image_path,
       Forall (produced image_path) detections -> rows = map row_of detections).
Proof.
  induction detections as [|x detections IH]; intros w; cbn [save_all].
  - exists []. rewrite app_nil_r. destruct w. repeat split; cbn; auto.
  - unfold ebind, save_detection.
    destruct (DbFacts.save_detection_cases (insert_error cv) x (db w))
      as [(row & Hn & Hi & ->) | (Hno & ->)].
    + destruct (IH (mkWorld (self w) (db w ++ [row]) (uuids w) (clock w)))
        as (rows & -> & Hl & Hp). cbn [self db uuids clock].
      exists (row :: rows). rewrite <- app_assoc. split; [reflexivity|].
      split; [cbn [length]; lia|].
      intros Hperm image_path HF. inversion HF as [|? ? Hx HF']; subst.
      rewrite (produced_row image_path x Hx) in Hn. inversion Hn; subst.
      cbn [map]. f_equal. apply (Hp Hperm image_path HF').
    + destruct (IH (mkWorld (self w) (db w) (uuids w) (clock w)))
        as (rows & -> & Hl & Hp). cbn [self db uuids clock].
      exists rows. split; [reflexivity|]. split; [cbn [length]; lia|].
      intros Hperm image_path HF. inversion HF as [|? ? Hx HF']; subst.
      exfalso. apply (Hno (row_of x) (produced_row image_path x Hx)). apply Hperm.
Qed.

(** The two ways a call of [detect_landmines] ends. *)
Lemma detect_landmines_shape image_path w :
  exists ds w',
    detect_landmines cv image_path w = (ds, w') /\
    ((ds = [] /\ self w' = self w /\ db w' = db w /\
      (path_exists cv image_path = true -> imread cv image_path <> None ->
       ~ writable cv image_path)) \/
     (path_exists cv image_path = true /\ imread cv image_path <> None /\
      Forall (produced image_path) ds /\
      (contains "landmine_detection1.jpg" image_path = false ->
       Forall capped_debris ds) /\
      processed_images (self w') =
        <[ image_path := output_path cv image_path ]> (processed_images (self w)) /\
      detection_results (self w') =
        <[ image_path := ds ]> (detection_results (self w)) /\
      exists rows,
        db w' = db w ++ rows /\
        (length rows <= length ds)%nat /\
        (permissive cv -> rows = map row_of ds))).
Proof.
  unfold detect_landmines, detect_landmines_body, ebind at 1.
  destruct (path_exists cv image_path) eqn:He; cbn [eret raise];
    [|exists [], w; split; [reflexivity|]; left; repeat split; discriminate].
  unfold ebind at 1.
  destruct (imread cv image_path) as [img|] eqn:Hr; cbn [eret raise];
    [|exists [], w; split; [reflexivity|]; left; repeat split; congruence].
  unfold ebind at 1, get_self at 1. unfold ebind at 1.
  assert (Hann : exists ds img' u c,
    (if contains "landmine_detection1.jpg" image_path
     then annotate_predefined cv image_path (predefined_landmines (self w)) [] img
     else annotate_contours cv (self w) image_path
            (findContours cv (adaptiveThreshold cv (GaussianBlur cv (cvtColor cv img))))
            [] img) w = (Return (ds, img'), mkWorld (self w) (db w) u c) /\
    Forall (produced image_path) ds /\
    (contains "landmine_detection1.jpg" image_path = false -> Forall capped_debris ds)).
  { destruct (contains "landmine_detection1.jpg" image_path).
    - destruct (annotate_predefined_shape image_path (predefined_landmines (self w)) [] img w)
        as (extra & img' & u & c & H & HF).
      exists extra, img', u, c. cbn [app] in H. repeat split; auto. discriminate.
    - destruct (annotate_contours_shape (self w) image_path
                  (findContours cv (adaptiveThreshold cv (GaussianBlur cv (cvtColor cv img))))
                  [] img w) as (extra & img' & u & c & H & HF & HD & _).
      exists extra, img', u, c. cbn [app] in H. repeat split; auto. }
  destruct Hann as (ds & img' & u & c & -> & HF & HD).
  unfold ebind at 1, of_outcome at 1.
  destruct (makedirs cv (join cv (dirname cv image_path) "processed")) as [[]|e] eqn:Hm.
  2:{ eexists [], _. split; [reflexivity|]. left. cbn. do 3 (split; [reflexivity|]).
      intros _ _ [Hw _]. cbv zeta in Hw. congruence. }
  unfold ebind at 1, of_outcome at 1.
  destruct (imwrite cv _ img') as [b|e] eqn:Hw.
  2:{ eexists [], _. split; [reflexivity|]. left. cbn. do 3 (split; [reflexivity|]).
      intros _ _ [_ Hw']. destruct (Hw' img') as [b Hb].
      cbv zeta in Hb. congruence. }
  unfold ebind at 1, record_result. unfold ebind at 1.
  match goal with |- context [save_all cv ds ?w0] =>
    destruct (save_all_appends ds w0) as (rows & -> & Hl & Hp) end.
  eexists ds, _. split; [reflexivity|]. right. cbn.
  split; [reflexivity|]. split; [discriminate|].
  split; [exact HF|]. split; [exact HD|]. split; [reflexivity|]. split; [reflexivity|].
  exists rows. split; [reflexivity|]. split; [exact Hl|].
  intros Hperm. apply (Hp Hperm image_path HF).
Qed.

(** X19: when the image file does not exist or cannot be decoded,
    [detect_landmines] returns the empty list and changes nothing: the
    detector, the detection table, the uuid source and the clock are as
    before. *)
Theorem detect_landmines_unreadable :
  forall image_path w,
    path_exists cv image_path = false \/ imread cv image_path = None ->
    detect_landmines cv image_path w = ([], w).
Proof.
  intros image_path w H.
  unfold detect_landmines, detect_landmines_body, ebind at 1.
  destruct (path_exists cv image_path); [|reflexivity].
  destruct H as [H|H]; [discriminate|].
  cbn [eret]. unfold ebind at 1. rewrite H. reflexivity.
Qed.

(** X20: for an image whose path does not contain
    [landmine_detection1.jpg], every detection that [detect_landmines]
    returns is classified Metal Debris with a confidence of at most 0.95:
    the confidence is capped at 0.95 before it is compared with 80. *)
Theorem contour_detections_are_debris :
  forall image_path w,
    contains "landmine_detection1.jpg" image_path = false ->
    Forall capped_debris (fst (detect_landmines cv image_path w)).
Proof.
  intros image_path w Hc.
  destruct (detect_landmines_shape image_path w) as (ds & w' & -> & H).
  cbn [fst]. destruct H as [(-> & _) | (_ & _ & _ & HD & _)].
  - constructor.
  - apply HD. exact Hc.
Qed.

(** X21: after a call of [detect_landmines] on an image that exists, decodes
    and whose processed copy can be written, the detector remembers the
    call: [get_processed_image_path] gives the path of the processed copy,
    the cached results of the image are the returned detections, and the
    entries of the other images are as before. *)
Theorem detect_landmines_caches :
  forall image_path w,
    path_exists cv image_path = true ->
    imread cv image_path <> None ->
    writable cv image_path ->
    let ds := fst (detect_landmines cv image_path w) in
    let w' := snd (detect_landmines cv image_path w) in
    get_processed_image_path image_path (self w') = Some (output_path cv image_path) /\
    detection_results (self w') !! image_path = Some ds /\
    forall other, other <> image_path ->
      get_processed_image_path other (self w') = get_processed_image_path other (self w) /\
      detection_results (self w') !! other = detection_results (self w) !! other.
Proof.
  intros image_path w He Hr Hw.
  destruct (detect_landmines_shape image_path w) as (ds & w' & -> & H).
  cbn [fst snd]. destruct H as [(_ & _ & _ & Hn) | (_ & _ & _ & _ & Hp & Hd & _)].
  - destruct (Hn He Hr Hw).
  - unfold get_processed_image_path. rewrite Hp, Hd.
    split; [apply lookup_insert_eq|]. split; [apply lookup_insert_eq|].
    intros other Ho. split; apply lookup_insert_ne; congruence.
Qed.

(** X22: once [detect_landmines] has processed an image,
    [extract_coordinates_from_image] answers from the cache: it returns the
    latitude and longitude of each of the returned detections and leaves the
    detector, the detection table, the uuid source and the clock alone. *)
Theorem extract_coordinates_after_detection :
  forall image_path w,
    path_exists cv image_path = true ->
    imread cv image_path <> None ->
    writable cv image_path ->
    let ds := fst (detect_landmines cv image_path w) in
    let w' := snd (detect_landmines cv image_path w) in
    extract_coordinates_from_image cv image_path w' = (Return (map geo ds), w').
Proof.
  intros image_path w He Hr Hw.
  destruct (detect_landmines_shape image_path w) as (ds & w' & -> & H).
  cbn [fst snd]. destruct H as [(_ & _ & _ & Hn) | (_ & _ & HF & _ & _ & Hd & _)].
  - destruct (Hn He Hr Hw).
  - unfold extract_coordinates_from_image. rewrite Hd, lookup_insert_eq.
    rewrite (coordinates_produced image_path ds HF). reflexivity.
Qed.

(** X23: [detect_landmines] only ever appends to the detection table: the
    rows it had are kept, in place, and at most one row per returned
    detection is added; a database that takes every row gets exactly the
    rows of the returned detections, in their order. *)
Theorem detect_landmines_appends :
  forall image_path w,
    exists rows,
      db (snd (detect_landmines cv image_path w)) = db w ++ rows /\
      (length rows <= length (fst (detect_landmines cv image_path w)))%nat /\
      (permissive cv -> rows = map row_of (fst (detect_landmines cv image_path w))).
Proof.
  intros image_path w.
  destruct (detect_landmines_shape image_path w) as (ds & w' & -> & H).
  cbn [fst snd].
  destruct H as [(-> & _ & Hdb & _) | (_ & _ & _ & _ & _ & _ & rows & Hdb & Hl & Hp)].
  - exists []. rewrite app_nil_r. repeat split; auto.
  - exists rows. repeat split; auto.
Qed.

End Cv2.

Lemma simple_cv2_writable image_path :
  writable (simple_cv2 (Return tt) (Return true)) image_path.
Proof. split; [reflexivity|]. intros img. exists true. reflexivity. Qed.

Lemma detect_landmines_unreadable_witness :
  detect_landmines empty_cv2 "sample_images/landmine_detection1.jpg" demo_world =
  ([], demo_world).
Proof.
  apply (detect_landmines_unreadable empty_cv2). left. reflexivity.
Defined.

Lemma contour_detections_are_debris_witness :
  Forall capped_debris
    (fst (detect_landmines (simple_cv2 (Return tt) (Return true))
            "sample_images/field.jpg" demo_world)).
Proof.
  apply (contour_detections_are_debris (simple_cv2 (Return tt) (Return true))).
  reflexivity.
Defined.

Lemma detect_landmines_caches_witness :
  get_processed_image_path "sample_images/field.jpg"
    (self (snd (detect_landmines (simple_cv2 (Return tt) (Return true))
                  "sample_images/field.jpg" demo_world)))
  = Some (output_path (simple_cv2 (Return tt) (Return true)) "sample_images/field.jpg").
Proof.
  destruct (detect_landmines_caches (simple_cv2 (Return tt) (Return true))
              "sample_images/field.jpg" demo_world) as [H _].
  - reflexivity.
  - discriminate.
  - apply simple_cv2_writable.
  - exact H.
Defined.

Lemma extract_coordinates_after_detection_witness :
  let cv := simple_cv2 (Return tt) (Return true) in
  let r := detect_landmines cv "sample_images/landmine_detection1.jpg" demo_world in
  extract_coordinates_from_image cv "sample_images/landmine_detection1.jpg" (snd r) =
  (Return (map geo (fst r)), snd r).
Proof.
  apply (extract_coordinates_after_detection (simple_cv2 (Return tt) (Return true))).
  - reflexivity.
  - discriminate.
  - apply simple_cv2_writable.
Defined.

(** The one contour of the example is round enough to pass the filters and
    is reported as debris at a confidence of 0.95. *)
Example field_image :
  map box (fst (detect_landmines (simple_cv2 (Return tt) (Return true))
                  "sample_images/field.jpg" demo_world)) =
  [ (Some (PyInt 10), Some (PyInt 20), Some (PyInt 11), Some (PyInt 11),
     Some (PyFloat 0.95), Some (PyStr "Metal Debris")) ].
Proof. vm_compute. reflexivity. Qed.

End ImageQueriesFacts.

(** * utils.py *)
Module UtilsFacts.
Import Utils.
Local Open Scope Z_scope.

(** X24: [get_status_color] answers green exactly for Online and Connected,
    orange exactly for Warning and Degraded, red exactly for Offline,
    Disconnected and Error, and gray for every other string, also for these
    words in another case. *)
Theorem status_colors :
  forall status,
    (get_status_color status = "green"%string <->
     status = "Online"%string \/ status = "Connected"%string) /\
    (get_status_color status = "orange"%string <->
     status = "Warning"%string \/ status = "Degraded"%string) /\
    (get_status_color status = "red"%string <->
     status = "Offline"%string \/ status = "Disconnected"%string \/
     status = "Error"%string) /\
    (get_status_color status = "gray"%string <->
     ~ In status ["Online"; "Connected"; "Warning"; "Degraded"; "Offline";
                  "Disconnected"; "Error"]%string) /\
    get_status_color "online" = "gray"%string.
Proof.
  intros status. unfold get_status_color.
  destruct (String.eqb_spec status "Online") as [->|H1];
    [cbn; repeat split; intros; try discriminate; try tauto;
     repeat match goal with H : _ \/ _ |- _ => destruct H end; try discriminate;
     exfalso; auto|].
  destruct (String.eqb_spec status "Connected") as [->|H2];
    [cbn; repeat split; intros; try discriminate; try tauto;
     repeat match goal with H : _ \/ _ |- _ => destruct H end; try discriminate;
     exfalso; auto|].
  destruct (String.eqb_spec status "Warning") as [->|H3];
    [cbn; repeat split; intros; try discriminate; try tauto;
     repeat match goal with H : _ \/ _ |- _ => destruct H end; try discriminate;
     exfalso; auto 10|].
  destruct (String.eqb_spec status "Degraded") as [->|H4];
    [cbn; repeat split; intros; try discriminate; try tauto;
     repeat match goal with H : _ \/ _ |- _ => destruct H end; try discriminate;
     exfalso; auto 10|].
  destruct (String.eqb_spec status "Offline") as [->|H5];
    [cbn; repeat split; intros; try discriminate; try tauto;
     repeat match goal with H : _ \/ _ |- _ => destruct H end; try discriminate;
     exfalso; auto 10|].
  destruct (String.eqb_spec status "Disconnected") as [->|H6];
    [cbn; repeat split; intros; try discriminate; try tauto;
     repeat match goal with H : _ \/ _ |- _ => destruct H end; try discriminate;
     exfalso; auto 10|].
  destruct (String.eqb_spec status "Error") as [->|H7];
    [cbn; repeat split; intros; try discriminate; try tauto;
     repeat match goal with H : _ \/ _ |- _ => destruct H end; try discriminate;
     exfalso; auto 10|].
  cbn. repeat split; intros; try discriminate; try tauto.
  all: repeat match goal with H : _ \/ _ |- _ => destruct H end.
  all: try contradiction; try congruence.
  intros Hin. repeat (destruct Hin as [Hin|Hin]; [congruence|]). exact Hin.
Qed.

Section FormatTimestamp.
Variable strftime : Z -> string.

Lemma delta_small now ts :
  0 <= now - ts < 86400000000 ->
  days (datetime_sub now ts) = 0 /\
  seconds (datetime_sub now ts) = (now - ts) / 1000000 /\
  0 <= seconds (datetime_sub now ts) < 86400.
Proof.
  intros H. unfold datetime_sub. cbn [days seconds].
  rewrite Z.div_small, Z.mod_small by lia.
  repeat split; [apply Z.div_pos; lia | apply Z.div_lt_upper_bound; lia].
Qed.

(** X25: [format_timestamp] by the time elapsed between the timestamp and
    now, in microseconds: N/A without a timestamp; Just now under a minute;
    whole minutes, from 1 to 59, under an hour; whole hours, from 1 to 23,
    under a day; Yesterday from one day to under two days; and the formatted
    date for two days or more and for a timestamp in the future. *)
Theorem format_timestamp_cases :
  forall now ts,
    let elapsed := now - ts in
    format_timestamp strftime now None = "N/A"%string /\
    (0 <= elapsed < 60000000 ->
     format_timestamp strftime now (Some ts) = "Just now"%string) /\
    (60000000 <= elapsed < 3600000000 ->
     format_timestamp strftime now (Some ts)
       = (pretty (elapsed / 60000000) +:+ "m ago")%string /\
     1 <= elapsed / 60000000 <= 59) /\
    (3600000000 <= elapsed < 86400000000 ->
     format_timestamp strftime now (Some ts)
       = (pretty (elapsed / 3600000000) +:+ "h ago")%string /\
     1 <= elapsed / 3600000000 <= 23) /\
    (86400000000 <= elapsed < 172800000000 ->
     format_timestamp strftime now (Some ts) = "Yesterday"%string) /\
    (elapsed < 0 \/ 172800000000 <= elapsed ->
     format_timestamp strftime now (Some ts) = strftime ts).
Proof.
  intros now ts elapsed. unfold elapsed. split; [reflexivity|].
  repeat split.
  - intros H. destruct (delta_small now ts) as (Hd & Hs & _); [lia|].
    unfold format_timestamp. rewrite Hd, Hs. cbn [Z.eqb].
    assert ((now - ts) / 1000000 < 60) by (apply Z.div_lt_upper_bound; lia).
    destruct (Z.ltb_spec ((now - ts) / 1000000) 60); [reflexivity | lia].
  - destruct (delta_small now ts) as (Hd & Hs & _); [lia|].
    unfold format_timestamp. rewrite Hd, Hs. cbn [Z.eqb].
    assert (60 <= (now - ts) / 1000000) by (apply Z.div_le_lower_bound; lia).
    assert ((now - ts) / 1000000 < 3600) by (apply Z.div_lt_upper_bound; lia).
    destruct (Z.ltb_spec ((now - ts) / 1000000) 60); [lia|].
    destruct (Z.ltb_spec ((now - ts) / 1000000) 3600); [|lia].
    rewrite Z.div_div by lia. reflexivity.
  - apply Z.div_le_lower_bound; lia.
  - assert ((now - ts) / 60000000 < 60) by (apply Z.div_lt_upper_bound; lia). lia.
  - destruct (delta_small now ts) as (Hd & Hs & _); [lia|].
    unfold format_timestamp. rewrite Hd, Hs. cbn [Z.eqb].
    assert (3600 <= (now - ts) / 1000000) by (apply Z.div_le_lower_bound; lia).
    destruct (Z.ltb_spec ((now - ts) / 1000000) 60); [lia|].
    destruct (Z.ltb_spec ((now - ts) / 1000000) 3600); [lia|].
    rewrite Z.div_div by lia. reflexivity.
  - apply Z.div_le_lower_bound; lia.
  - assert ((now - ts) / 3600000000 < 24) by (apply Z.div_lt_upper_bound; lia). lia.
  - intros H. unfold format_timestamp, datetime_sub. cbn [days seconds].
    assert (Hd : (now - ts) / 86400000000 = 1).
    { apply Z.le_antisymm.
      - assert ((now - ts) / 86400000000 < 2) by (apply Z.div_lt_upper_bound; lia). lia.
      - apply Z.div_le_lower_bound; lia. }
    rewrite Hd. reflexivity.
  - intros H. unfold format_timestamp, datetime_sub. cbn [days seconds].
    assert (Hd : (now - ts) / 86400000000 < 0 \/ 2 <= (now - ts) / 86400000000).
    { destruct H as [H|H].
      - left. apply Z.div_lt_upper_bound; lia.
      - right. apply Z.div_le_lower_bound; lia. }
    destruct (Z.eqb_spec ((now - ts) / 86400000000) 0); [lia|].
    destruct (Z.eqb_spec ((now - ts) / 86400000000) 1); [lia|]. reflexivity.
Qed.
End FormatTimestamp.

Example five_minutes_ago :
  format_timestamp (fun _ => "2024-01-01 00:00"%string) 1000000000 (Some 700000000)
  = "5m ago"%string.
Proof. vm_compute. reflexivity. Qed.

Example from_the_future :
  format_timestamp (fun _ => "2024-01-01 00:00"%string) 0 (Some 1)
  = "2024-01-01 00:00"%string.
Proof. vm_compute. reflexivity. Qed.
End UtilsFacts.
